(** * PDF transaction extractor: the pipeline of
      [converter/pdf_to_json_converter.py]

    The script reads a PDF statement page by page, sends every page text to
    a chat-completion endpoint, gathers what the model answers and writes
    the aggregate as one JSON file.  Everything it does is a call to a
    library ([pdfplumber], [requests], [json], [pathlib], [os], [time],
    the built-in [open] and [print]); the embedding keeps the control flow of
    the script as it is written and takes the libraries as an environment:

    - pure library functions ([json.loads], [json.dumps], [str(Path(_))])
      are variables of the section;
    - the outside world (file system, environment variables, the PDF
      library, the HTTP endpoint) is a record [World] of oracles;
    - every call that reaches the outside world is recorded as an [event],
      in the order in which the script makes it. *)

From Stdlib Require Import String Ascii List ZArith Lia Bool Arith.
From Stdlib Require Import SpecFloat DecimalString.
Import ListNotations.
Open Scope string_scope.
Open Scope list_scope.

Set Implicit Arguments.
Set Warnings "-register-all".

(** ** Python values *)

(** What [json.loads] and [response.json()] produce: [None], [bool], [int],
    [float], [str], [list] and [dict] (string keys, insertion order kept, so a
    [dict] is an association list; keys of a well-formed one are distinct). *)
Inductive json : Type :=
| JNull
| JBool (b : bool)
| JInt (z : Z)
| JFloat (f : spec_float)
| JStr (s : string)
| JArr (items : list json)
| JObj (fields : list (string * json)).

(** Exceptions, all of them subclasses of [Exception].  The three first are
    the ones the interpreter raises on the script's own subscripts and on
    [list.extend]; [LibraryError] is any exception raised inside a library
    or by the operating system, with its message. *)
Inductive exn : Type :=
| KeyError
| IndexError
| TypeError
| LibraryError (msg : string).

Inductive result (A : Type) : Type :=
| Ok (a : A)
| Raise (e : exn).
Arguments Ok {A} a.
Arguments Raise {A} e.

(** ** The outside world *)

(** A [pdfplumber] page: [page.extract_text()] gives a [str], or [None], or
    raises. *)
Record page : Type := { extract_text : result (option string) }.

(** An opened document: [pdf.pages] gives the pages or raises. *)
Record pdf : Type := { pages : result (list page) }.

(** A [requests.Response]: [status_code], [text], and [json()], which gives
    the decoded body or raises. *)
Record response : Type := {
  status_code : Z;
  text : string;
  body_json : result json
}.

(** The lines the script prints, one constructor per [print] of the source
    with the values its f-string interpolates. *)
Inductive console_line : Type :=
| PrintErrorReadingPdf (e : exn)              (* "Error reading PDF: {e}" *)
| PrintApiError (status : Z) (body : string)  (* "API Error: {status_code} {text}" *)
| PrintErrorExtracting (e : exn)              (* "Error extracting transactions: {e}" *)
| PrintProcessingPdf (pdf_path : string)      (* "Processing PDF: {pdf_path}" *)
| PrintFailedToExtract                        (* "Failed to extract text from PDF" *)
| PrintExtractedPages (n : nat)               (* "Extracted text from {n} pages" *)
| PrintProcessingPage (i n : nat)             (* "Processing page {i}/{n}" *)
| PrintNoTransactions                         (* "No transactions found" *)
| PrintExtracted (n : nat)                    (* "Extracted {n} transactions" *)
| PrintSaved (n : nat) (output_path : string) (* "Saved {n} transactions to {output_path}" *)
| PrintErrorSaving (e : exn)                  (* "Error saving JSON file: {e}" *)
| PrintPdfNotFound (pdf_path : string)        (* "PDF file not found: {pdf_path}" *)
| PrintApiKeyRequired.                        (* "API key required. Use --api-key ..." *)

(** The calls that leave the process, in the order the script makes them. *)
Inductive event : Type :=
| EvPrint (line : console_line)
| EvPathExists (path : string)                 (* Path.exists() *)
| EvGetenv (name : string)                     (* os.getenv(name) *)
| EvPdfOpen (path : string)                    (* pdfplumber.open(path) *)
| EvPdfPages (path : string)                   (* pdf.pages *)
| EvPdfExtractText (path : string) (index : nat) (* page.extract_text() *)
| EvPdfClose (path : string)                   (* leaving the with block *)
| EvHttpPost (url : string) (headers : list (string * string)) (body : json)
| EvSleep (seconds : Z)                        (* time.sleep(seconds) *)
| EvFileOpenW (path : string)                  (* open(path, "w", encoding="utf-8") *)
| EvFileWrite (path : string) (content : string) (* what json.dump writes to f *)
| EvFileClose (path : string).                 (* leaving the with block *)

Definition trace : Type := list event.

(** The answers of the outside world.  The endpoint may answer the same
    request differently from one call to the next: its oracle also takes the
    number of requests already sent. *)
Record World : Type := {
  path_exists : string -> bool;
  getenv : string -> option string;
  pdf_open : string -> result pdf;
  http_post : nat -> string -> list (string * string) -> json -> result response;
  file_open_w : string -> result unit;
  file_write : string -> string -> result unit
}.

(** ** A monad for the script

    A computation starts from the number of requests the process has
    already sent and gives a value or an exception, the events it made, and
    the new number of requests.  An exception keeps the events made before
    it. *)

Definition M (A : Type) : Type := nat -> result A * trace * nat.

Definition value_of {A : Type} (o : result A * trace * nat) : result A :=
  fst (fst o).

Definition events_of {A : Type} (o : result A * trace * nat) : trace :=
  snd (fst o).

Definition ret {A : Type} (a : A) : M A := fun n => (Ok a, [], n).

Definition bind {A B : Type} (m : M A) (k : A -> M B) : M B :=
  fun n =>
    match m n with
    | (Ok a, t1, n1) =>
        match k a n1 with
        | (r, t2, n2) => (r, t1 ++ t2, n2)
        end
    | (Raise e, t1, n1) => (Raise e, t1, n1)
    end.

(** [try: m except Exception as e: handler e] *)
Definition try_except {A : Type} (m : M A) (handler : exn -> M A) : M A :=
  fun n =>
    match m n with
    | (Ok a, t1, n1) => (Ok a, t1, n1)
    | (Raise e, t1, n1) =>
        match handler e n1 with
        | (r, t2, n2) => (r, t1 ++ t2, n2)
        end
    end.

(** [with ... :] around [body], for a context manager whose exit is the
    event [release] and lets exceptions through. *)
Definition with_block {A : Type} (body : M A) (release : event) : M A :=
  fun n =>
    match body n with
    | (r, t1, n1) => (r, t1 ++ [release], n1)
    end.

Definition emit (e : event) : M unit := fun n => (Ok tt, [e], n).

(** The answer of a library call that sends nothing. *)
Definition lift {A : Type} (r : result A) : M A := fun n => (r, [], n).

(** [requests.post(url, headers=headers, json=data)] *)
Definition requests_post (w : World) (url : string)
    (headers : list (string * string)) (data : json) : M response :=
  fun n => (http_post w n url headers data, [EvHttpPost url headers data], S n).

Declare Scope py_scope.
Delimit Scope py_scope with py.
Notation "x <- m ;; k" := (bind m (fun x => k))
  (at level 61, m at next level, right associativity) : py_scope.
Notation "m ;;; k" := (bind m (fun _ => k))
  (at level 61, right associativity) : py_scope.
Open Scope py_scope.

Definition print (l : console_line) : M unit := emit (EvPrint l).

(** ** Built-ins of the language *)

(** Truth value of a [str]. *)
Definition str_truthy (s : string) : bool :=
  match s with EmptyString => false | String _ _ => true end.

(** Truth value of a [list]. *)
Definition list_truthy {A : Type} (l : list A) : bool :=
  match l with [] => false | _ :: _ => true end.

Fixpoint chars (s : string) : list json :=
  match s with
  | EmptyString => []
  | String c s' => JStr (String c EmptyString) :: chars s'
  end.

(** [iter(v)]: what a [for] or [list.extend] gets out of a value.  A list
    gives its items, a dict its keys, a str its characters; the other values
    are not iterable ([TypeError]). *)
Definition py_iter (v : json) : result (list json) :=
  match v with
  | JArr items => Ok items
  | JObj fields => Ok (map (fun kv => JStr (fst kv)) fields)
  | JStr s => Ok (chars s)
  | JNull | JBool _ | JInt _ | JFloat _ => Raise TypeError
  end.

(** [l.extend(v)], giving the extended list. *)
Definition list_extend (l : list json) (v : json) : result (list json) :=
  match py_iter v with
  | Ok items => Ok (l ++ items)
  | Raise e => Raise e
  end.

Fixpoint dict_get (fields : list (string * json)) (k : string) : option json :=
  match fields with
  | [] => None
  | (k', v) :: rest => if String.eqb k' k then Some v else dict_get rest k
  end.

(** [v[k]] for a string key [k]. *)
Definition subscript_key (v : json) (k : string) : result json :=
  match v with
  | JObj fields =>
      match dict_get fields k with
      | Some x => Ok x
      | None => Raise KeyError
      end
  | _ => Raise TypeError
  end.

(** [v[0]]. *)
Definition subscript_zero (v : json) : result json :=
  match v with
  | JArr (x :: _) => Ok x
  | JArr [] => Raise IndexError
  | JStr (String c _) => Ok (JStr (String c EmptyString))
  | JStr EmptyString => Raise IndexError
  | JObj _ => Raise KeyError
  | _ => Raise TypeError
  end.

(** [body["choices"][0]["message"]["content"]] *)
Definition completion_content (body : json) : result json :=
  match subscript_key body "choices" with
  | Raise e => Raise e
  | Ok choices =>
      match subscript_zero choices with
      | Raise e => Raise e
      | Ok choice =>
          match subscript_key choice "message" with
          | Raise e => Raise e
          | Ok message => subscript_key message "content"
          end
      end
  end.

(** ** The processor *)

Record TransactionProcessor : Type := {
  api_key : string;
  model : string;
  api_url : string;
  rate_limit_delay : Z   (* seconds between API calls *)
}.

(** [TransactionProcessor.__init__] *)
Definition init (api_key model : string) : TransactionProcessor :=
  {| api_key := api_key;
     model := model;
     api_url := "https://api.groq.com/openai/v1/chat/completions";
     rate_limit_delay := 8 |}.

Definition default_model : string := "llama3-70b-8192".

(** The prompt of [extract_transactions_from_text], an f-string over the
    page text. *)
Definition prompt_of (text_chunk : string) : string :=
  ("
        Extract all bank transactions from the following text.
        Output JSON array only.
        Each object must have: date (dd-mm-yyyy), details, amount (negative for debits, positive for credits).
        Ignore balance values. Skip headers.

        Text:
        " ++ text_chunk ++ "
        ")%string.

Definition headers_of (self : TransactionProcessor) : list (string * string) :=
  [ ("Authorization", ("Bearer " ++ api_key self)%string);
    ("Content-Type", "application/json") ].

Definition data_of (self : TransactionProcessor) (prompt : string) : json :=
  JObj [ ("model", JStr (model self));
         ("messages",
          JArr [ JObj [ ("role", JStr "system");
                        ("content", JStr "You are a precise financial data extraction assistant.") ];
                 JObj [ ("role", JStr "user");
                        ("content", JStr prompt) ] ]);
         ("temperature", JInt 0) ].

(** Parsed command line ([argparse] fills the defaults: [output] is
    ["transactions.json"], [--api-key] is [None], [--model] is
    [default_model]). *)
Record Args : Type := {
  pdf_file : string;
  output : string;
  arg_api_key : option string;
  arg_model : string
}.

(** [x if x else None] on an optional [str]: the value when it is truthy. *)
Definition truthy_value (o : option string) : option string :=
  match o with
  | Some s => if str_truthy s then Some s else None
  | None => None
  end.

Section Pipeline.

(** [json.loads] on a [str]. *)
Variable json_loads : string -> result json.

(** [json.dumps(_, indent=2, ensure_ascii=False)], the text that
    [json.dump] writes to the file. *)
Variable json_dumps : json -> string.

(** [str(Path(_))]. *)
Variable path_str : string -> string.

Variable w : World.

(** [json.loads(v)]: only a [str] is accepted among the values a decoded
    body can hold. *)
Definition py_json_loads (v : json) : result json :=
  match v with
  | JStr s => json_loads s
  | _ => Raise TypeError
  end.

(** The loop of [extract_text_from_pdf] over [pdf.pages]. *)
Fixpoint for_each_page (pdf_path : string) (ps : list page) (index : nat)
    (pages_text : list string) : M (list string) :=
  match ps with
  | [] => ret pages_text
  | p :: rest =>
      emit (EvPdfExtractText pdf_path index) ;;;
      text <- lift (extract_text p) ;;
      for_each_page pdf_path rest (S index)
        (match truthy_value text with
         | Some s => pages_text ++ [s]
         | None => pages_text
         end)
  end.

Definition extract_text_from_pdf (self : TransactionProcessor)
    (pdf_path : string) : M (list string) :=
  try_except
    (emit (EvPdfOpen pdf_path) ;;;
     doc <- lift (pdf_open w pdf_path) ;;
     with_block
       (emit (EvPdfPages pdf_path) ;;;
        ps <- lift (pages doc) ;;
        for_each_page pdf_path ps 0 [])
       (EvPdfClose pdf_path))
    (fun e =>
       print (PrintErrorReadingPdf e) ;;;
       ret []).

Definition extract_transactions_from_text (self : TransactionProcessor)
    (text_chunk : string) : M json :=
  let prompt := prompt_of text_chunk in
  let headers := headers_of self in
  let data := data_of self prompt in
  try_except
    (response <- requests_post w (api_url self) headers data ;;
     if (status_code response =? 200)%Z then
       body <- lift (body_json response) ;;
       content <- lift (completion_content body) ;;
       lift (py_json_loads content)
     else
       print (PrintApiError (status_code response) (text response)) ;;;
       ret (JArr []))
    (fun e =>
       print (PrintErrorExtracting e) ;;;
       ret (JArr [])).

(** The loop of [process_pdf] over [enumerate(pages_text, 1)]; [total] is
    [len(pages_text)]. *)
Fixpoint for_each_text (self : TransactionProcessor) (total : nat)
    (texts : list string) (i : nat) (all_transactions : list json)
    : M (list json) :=
  match texts with
  | [] => ret all_transactions
  | page_text :: rest =>
      print (PrintProcessingPage i total) ;;;
      transactions <- extract_transactions_from_text self page_text ;;
      all_transactions' <- lift (list_extend all_transactions transactions) ;;
      emit (EvSleep (rate_limit_delay self)) ;;;
      for_each_text self total rest (S i) all_transactions'
  end.

Definition process_pdf (self : TransactionProcessor)
    (pdf_path output_path : string) : M bool :=
  print (PrintProcessingPdf pdf_path) ;;;
  pages_text <- extract_text_from_pdf self pdf_path ;;
  if negb (list_truthy pages_text) then
    print PrintFailedToExtract ;;;
    ret false
  else
    print (PrintExtractedPages (length pages_text)) ;;;
    all_transactions <- for_each_text self (length pages_text) pages_text 1 [] ;;
    if negb (list_truthy all_transactions) then
      print PrintNoTransactions ;;;
      ret false
    else
      print (PrintExtracted (length all_transactions)) ;;;
      try_except
        (emit (EvFileOpenW output_path) ;;;
         lift (file_open_w w output_path) ;;;
         with_block
           (let content := json_dumps (JArr all_transactions) in
            emit (EvFileWrite output_path content) ;;;
            lift (file_write w output_path content))
           (EvFileClose output_path) ;;;
         print (PrintSaved (length all_transactions) output_path) ;;;
         ret true)
        (fun e =>
           print (PrintErrorSaving e) ;;;
           ret false).

(** The tail of [main] once the key is known. *)
Definition run_processor (key : string) (args : Args) (pdf_path : string)
    : M Z :=
  let processor := init key (arg_model args) in
  success <- process_pdf processor pdf_path (output args) ;;
  ret (if success then 0%Z else 1%Z).

Definition main (args : Args) : M Z :=
  let pdf_path := path_str (pdf_file args) in
  emit (EvPathExists pdf_path) ;;;
  if negb (path_exists w pdf_path) then
    print (PrintPdfNotFound pdf_path) ;;;
    ret 1%Z
  else
    match truthy_value (arg_api_key args) with
    | Some key => run_processor key args pdf_path
    | None =>
        emit (EvGetenv "GROQ_API_KEY") ;;;
        match truthy_value (getenv w "GROQ_API_KEY") with
        | Some key => run_processor key args pdf_path
        | None =>
            print PrintApiKeyRequired ;;;
            ret 1%Z
        end
    end.

End Pipeline.

(** ** Vocabulary of the specification *)

(** A page has text when [extract_text()] gave a non-empty [str]. *)
Definition has_text (raw : option string) : bool :=
  match raw with
  | Some s => negb (String.eqb s "")
  | None => false
  end.

(** The texts of the pages that have one, in page order. *)
Fixpoint texts_of (raws : list (option string)) : list string :=
  match raws with
  | [] => []
  | Some s :: rest => if String.eqb s "" then texts_of rest else s :: texts_of rest
  | None :: rest => texts_of rest
  end.

(** A page whose [extract_text()] returns [raw]. *)
Definition page_of (raw : option string) : page := {| extract_text := Ok raw |}.

Definition page_raises (p : page) : bool :=
  match extract_text p with Raise _ => true | Ok _ => false end.

(** Opening the document, listing its pages or extracting one of them
    raises. *)
Definition pdf_raises (w : World) (pdf_path : string) : bool :=
  match pdf_open w pdf_path with
  | Raise _ => true
  | Ok doc =>
      match pages doc with
      | Raise _ => true
      | Ok ps => existsb page_raises ps
      end
  end.

(** Calls that read the document at [pdf_path]. *)
Definition is_pdf_read (pdf_path : string) (e : event) : bool :=
  match e with
  | EvPdfOpen p | EvPdfPages p | EvPdfExtractText p _ | EvPdfClose p =>
      String.eqb p pdf_path
  | _ => false
  end.

(** Calls that touch a PDF file in any way, the existence check included. *)
Definition touches_pdf (e : event) : bool :=
  match e with
  | EvPathExists _ | EvPdfOpen _ | EvPdfPages _ | EvPdfExtractText _ _
  | EvPdfClose _ => true
  | _ => false
  end.

(** Calls that open, read or close a PDF document. *)
Definition reads_pdf (e : event) : bool :=
  match e with
  | EvPdfOpen _ | EvPdfPages _ | EvPdfExtractText _ _ | EvPdfClose _ => true
  | _ => false
  end.

Definition is_http_post (e : event) : bool :=
  match e with EvHttpPost _ _ _ => true | _ => false end.

Definition is_sleep (e : event) : bool :=
  match e with EvSleep _ => true | _ => false end.

Definition is_print (e : event) : bool :=
  match e with EvPrint _ => true | _ => false end.

(** Calls that create or modify a file. *)
Definition writes_file (e : event) : bool :=
  match e with
  | EvFileOpenW _ | EvFileWrite _ _ | EvFileClose _ => true
  | _ => false
  end.

(** The texts written to [path], in order. *)
Fixpoint written (path : string) (t : trace) : list string :=
  match t with
  | [] => []
  | EvFileWrite p content :: rest =>
      if String.eqb p path then content :: written path rest
      else written path rest
  | _ :: rest => written path rest
  end.

Definition is_digit (c : ascii) : bool :=
  ((48 <=? nat_of_ascii c) && (nat_of_ascii c <=? 57))%nat.

Definition is_dash (c : ascii) : bool := (nat_of_ascii c =? 45)%nat.

(** [dd-mm-yyyy]: two digits, two digits, four digits, dashes between. *)
Definition is_ddmmyyyy (s : string) : bool :=
  match list_ascii_of_string s with
  | [d1; d2; s1; m1; m2; s2; y1; y2; y3; y4] =>
      is_digit d1 && is_digit d2 && is_dash s1 &&
      is_digit m1 && is_digit m2 && is_dash s2 &&
      is_digit y1 && is_digit y2 && is_digit y3 && is_digit y4
  | _ => false
  end.

Definition is_number (v : json) : bool :=
  match v with
  | JInt _ | JFloat _ => true
  | _ => false
  end.

(** A Transaction Record: a mapping with the three fields [date] (a
    [dd-mm-yyyy] string), [details] (a string) and [amount] (a number, whose
    sign tells debit from credit) and nothing else. *)
Definition is_transaction_record (v : json) : bool :=
  match v with
  | JObj fields =>
      (length fields =? 3)%nat &&
      match dict_get fields "date" with
      | Some (JStr d) => is_ddmmyyyy d
      | _ => false
      end &&
      match dict_get fields "details" with
      | Some (JStr _) => true
      | _ => false
      end &&
      match dict_get fields "amount" with
      | Some a => is_number a
      | None => false
      end
  | _ => false
  end.

(** The request the Client sends for a page text. *)
Definition post_of (self : TransactionProcessor) (text_chunk : string) : event :=
  EvHttpPost (api_url self) (headers_of self)
    (data_of self (prompt_of text_chunk)).

(** The three ways a call of the Client fails, on the answer to its
    request: no answer (network or transport error), a status other than
    200, or a completion whose content is not JSON text. *)
Definition client_call_fails (json_loads : string -> result json)
    (answer : result response) : Prop :=
  (exists e, answer = Raise e)
  \/ (exists r, answer = Ok r /\ status_code r <> 200%Z)
  \/ (exists r body content e,
        answer = Ok r /\ status_code r = 200%Z /\
        body_json r = Ok body /\
        completion_content body = Ok (JStr content) /\
        json_loads content = Raise e).

Definition is_request_or_delay (e : event) : bool :=
  is_http_post e || is_sleep e.

(** The Client returned a value whose items, as [list.extend] takes them,
    are [items]; for a list these are its elements. *)
Definition returns_sequence (r : result json) (items : list json) : Prop :=
  exists v, r = Ok v /\ py_iter v = Ok items.

(** The items a returned value stands for as a sequence: a list stands
    for its elements, a dict for its keys and a str for its characters, one
    string each; [None], a bool and a number stand for none. *)
Definition returned_items (v : json) : list json :=
  match v with
  | JArr items => items
  | JObj fields => map (fun kv => JStr (fst kv)) fields
  | JStr s =>
      map (fun c => JStr (String c EmptyString)) (list_ascii_of_string s)
  | JNull | JBool _ | JInt _ | JFloat _ => []
  end.

(** Step 3 of [process_pdf], the [try] block that saves the collection, as
    a computation of its own. *)
Definition save_step (json_dumps : json -> string) (w : World)
    (output_path : string) (all_transactions : list json) : M bool :=
  try_except
    (emit (EvFileOpenW output_path) ;;;
     lift (file_open_w w output_path) ;;;
     with_block
       (let content := json_dumps (JArr all_transactions) in
        emit (EvFileWrite output_path content) ;;;
        lift (file_write w output_path content))
       (EvFileClose output_path) ;;;
     print (PrintSaved (length all_transactions) output_path) ;;;
     ret true)
    (fun e =>
       print (PrintErrorSaving e) ;;;
       ret false).

Section ClientResults.

Variable json_loads : string -> result json.
Variable w : World.
Variable self : TransactionProcessor.

(** What the Client returns for each page text, the first one being asked
    when [n] requests have been sent. *)
Fixpoint client_results (n : nat) (texts : list string)
    : list (result json) :=
  match texts with
  | [] => []
  | text_chunk :: rest =>
      value_of (extract_transactions_from_text json_loads w self text_chunk n)
      :: client_results (S n) rest
  end.

(** The requests and delays of a run over [texts]: a request for the
    page, then the delay, page after page. *)
Definition requests_and_delays (texts : list string) : trace :=
  flat_map
    (fun text_chunk =>
       [ post_of self text_chunk; EvSleep (rate_limit_delay self) ])
    texts.

End ClientResults.

(** The endpoint of [w] is the deterministic model-response function
    [f]: its answer to a request does not depend on what came before. *)
Definition model_is (w : World)
    (f : string -> list (string * string) -> json -> result response) : Prop :=
  forall n url headers data, http_post w n url headers data = f url headers data.

(** File calls on [path]. *)
Definition is_file_call_on (path : string) (e : event) : bool :=
  match e with
  | EvFileOpenW p | EvFileWrite p _ | EvFileClose p => String.eqb p path
  | _ => false
  end.

(** The values [list.extend] cannot take: [None], a [bool], a number. *)
Definition not_iterable (v : json) : bool :=
  match v with
  | JNull | JBool _ | JInt _ | JFloat _ => true
  | JStr _ | JArr _ | JObj _ => false
  end.

Definition is_getenv (e : event) : bool :=
  match e with EvGetenv _ => true | _ => false end.

(** ** An environment for the examples

    Stand-ins for the [json] module, a few documents and endpoints, and
    the two-page scenario of the specification. *)

Module Example.

Definition quote : string := String (ascii_of_nat 34) EmptyString.

Definition quoted (s : string) : string := (quote ++ s ++ quote)%string.

Fixpoint join (sep : string) (l : list string) : string :=
  match l with
  | [] => ""
  | [x] => x
  | x :: rest => (x ++ sep ++ join sep rest)%string
  end.

Definition decimal (z : Z) : string :=
  DecimalString.NilZero.string_of_int (Z.to_int z).

(** -3.5 as a binary64 number. *)
Definition minus_3_5 : spec_float := S754_finite true 7881299347898368 (-51).

(** A serializer standing for [json.dumps]: compact JSON text, a float as
    its sign, mantissa and exponent. *)
Fixpoint dumps (v : json) : string :=
  match v with
  | JNull => "null"
  | JBool true => "true"
  | JBool false => "false"
  | JInt z => decimal z
  | JFloat (S754_finite s m e) =>
      ((if s then "-" else "") ++ decimal (Zpos m) ++ "p" ++ decimal e)%string
  | JFloat (S754_zero s) => if s then "-0.0" else "0.0"
  | JFloat (S754_infinity s) => if s then "-Infinity" else "Infinity"
  | JFloat S754_nan => "NaN"
  | JStr s => quoted s
  | JArr items => ("[" ++ join "," (map dumps items) ++ "]")%string
  | JObj fields =>
      ("{" ++ join ","
         (map (fun kv => match kv with
                         | (k, x) => (quoted k ++ ":" ++ dumps x)%string
                         end) fields) ++ "}")%string
  end.

Definition coffee : json :=
  JObj [ ("date", JStr "01-01-2024");
         ("details", JStr "Coffee");
         ("amount", JFloat minus_3_5) ].

Definition coffee_text : string :=
  ("{" ++ quoted "date" ++ ":" ++ quoted "01-01-2024" ++ ","
       ++ quoted "details" ++ ":" ++ quoted "Coffee" ++ ","
       ++ quoted "amount" ++ ":-3.50}")%string.

(** A parser standing for [json.loads]: a table of the texts the examples
    use; every other text is rejected. *)
Definition loads (s : string) : result json :=
  if String.eqb s "[]" then Ok (JArr [])
  else if String.eqb s "[1]" then Ok (JArr [JInt 1])
  else if String.eqb s "42" then Ok (JInt 42)
  else if String.eqb s ("[" ++ coffee_text ++ "]") then Ok (JArr [coffee])
  else if String.eqb s coffee_text then Ok coffee
  else Raise (LibraryError "Expecting value").

Definition path_str (s : string) : string := s.

(** A chat completion whose message content is [content]. *)
Definition completion (content : string) : json :=
  JObj [ ("choices",
          JArr [ JObj [ ("index", JInt 0);
                        ("message",
                         JObj [ ("role", JStr "assistant");
                                ("content", JStr content) ]) ] ]) ].

Definition answer (status : Z) (content : string) : result response :=
  Ok {| status_code := status;
        text := dumps (completion content);
        body_json := Ok (completion content) |}.

(** The world in which [statement.pdf] holds the document [doc], the
    environment has the variables [env], the endpoint answers by [post]
    and files can be written. *)
Definition world (doc : result pdf) (env : string -> option string)
    (post : nat -> string -> list (string * string) -> json -> result response)
    : World :=
  {| path_exists := fun p => String.eqb p "statement.pdf";
     getenv := env;
     pdf_open := fun p =>
       if String.eqb p "statement.pdf" then doc
       else Raise (LibraryError "No such file or directory");
     http_post := post;
     file_open_w := fun _ => Ok tt;
     file_write := fun _ _ => Ok tt |}.

(** An endpoint that gives [answers] in turn and then stops answering. *)
Definition in_turn (answers : list (result response))
    : nat -> string -> list (string * string) -> json -> result response :=
  fun n _ _ _ => nth n answers (Raise (LibraryError "Connection refused")).

(** An endpoint that finds one coffee on every page. *)
Definition coffee_model
    : string -> list (string * string) -> json -> result response :=
  fun _ _ _ => answer 200 ("[" ++ coffee_text ++ "]").

Definition key_in_env (name : string) : option string :=
  if String.eqb name "GROQ_API_KEY" then Some "secret" else None.

Definition no_env (name : string) : option string := None.

Definition statement_pdf : result pdf :=
  Ok {| pages := Ok [ page_of (Some "01-01-2024 Coffee 3.50");
                      page_of (Some "");
                      page_of None;
                      page_of (Some "Closing balance 96.50") ] |}.

Definition statement_raws : list (option string) :=
  [ Some "01-01-2024 Coffee 3.50"; Some ""; None; Some "Closing balance 96.50" ].

(** A scanned document: no page has text. *)
Definition scanned_pdf : result pdf :=
  Ok {| pages := Ok [ page_of (Some ""); page_of None ] |}.

Definition one_page : result pdf :=
  Ok {| pages := Ok [ page_of (Some "01-01-2024 Coffee 3.50") ] |}.

(** A document whose third page cannot be parsed. *)
Definition broken_pdf : result pdf :=
  Ok {| pages := Ok [ page_of (Some "01-01-2024 Coffee 3.50");
                      page_of (Some "02-01-2024 Tea 2.00");
                      {| extract_text := Raise (LibraryError "Unexpected EOF") |} ] |}.

Definition args : Args :=
  {| pdf_file := "statement.pdf";
     output := "transactions.json";
     arg_api_key := None;
     arg_model := default_model |}.

Definition processor : TransactionProcessor := init "secret" default_model.

(** The scenario of the specification: the model finds one coffee on the
    first page with text and nothing on the second. *)
Definition scenario : World :=
  world statement_pdf no_env
    (in_turn [ answer 200 ("[" ++ coffee_text ++ "]"); answer 200 "[]" ]).

Definition scenario_run : result bool * trace * nat :=
  process_pdf loads dumps scenario processor "statement.pdf"
    "transactions.json" 0.

(** Worlds whose endpoint answers one page in a given way. *)
Definition answering (content : string) : World :=
  world one_page no_env (in_turn [ answer 200 content ]).

Definition first_text : string := "01-01-2024 Coffee 3.50".

End Example.

(** * The setup check of [converter/test_env.py]

    The script loads [.env] into [os.environ] and reports what it finds.
    A character of a [string] stands for one code point of the Python [str]
    (below 256); [os.environ] is the POSIX one, whose keys are kept as
    written. *)

(** [str.isspace] on one character: U+0009 to U+000D, U+001C to U+0020,
    U+0085 and U+00A0. *)
Definition is_space (c : ascii) : bool :=
  (((9 <=? nat_of_ascii c) && (nat_of_ascii c <=? 13))
   || ((28 <=? nat_of_ascii c) && (nat_of_ascii c <=? 32))
   || (nat_of_ascii c =? 133)
   || (nat_of_ascii c =? 160))%nat.

(** [s.lstrip()] *)
Fixpoint lstrip (s : string) : string :=
  match s with
  | EmptyString => EmptyString
  | String c s' => if is_space c then lstrip s' else s
  end.

(** [s.rstrip()] *)
Fixpoint rstrip (s : string) : string :=
  match s with
  | EmptyString => EmptyString
  | String c s' =>
      match rstrip s' with
      | EmptyString => if is_space c then EmptyString else String c EmptyString
      | String c' r => String c (String c' r)
      end
  end.

(** [s.strip()] *)
Definition strip (s : string) : string := rstrip (lstrip s).

Definition is_hash (c : ascii) : bool := (nat_of_ascii c =? 35)%nat.

Definition is_equals (c : ascii) : bool := (nat_of_ascii c =? 61)%nat.

(** [s.startswith('#')] *)
Definition startswith_hash (s : string) : bool :=
  match s with
  | String c _ => is_hash c
  | EmptyString => false
  end.

(** ['=' in s] *)
Fixpoint contains_equals (s : string) : bool :=
  match s with
  | EmptyString => false
  | String c s' => is_equals c || contains_equals s'
  end.

(** [s.split('=', 1)]: the whole of [s] when it has no ['='], else what
    comes before the first ['='] and what comes after it. *)
Fixpoint split_equals_once (s : string) : list string :=
  match s with
  | EmptyString => [EmptyString]
  | String c s' =>
      if is_equals c then [EmptyString; s']
      else
        match split_equals_once s' with
        | x :: rest => String c x :: rest
        | [] => []
        end
  end.

(** [os.environ], read by [os.getenv]. *)
Definition environ : Type := string -> option string.

(** [environ[key] = value], once the operating system took it. *)
Definition environ_set (key value : string) (env : environ) : environ :=
  fun name => if String.eqb name key then Some value else env name.

(** What the setup check sees of the machine: whether [.env] exists, what
    opening and iterating over it gives (each line as read, newline
    included, or the exception that ends the reading), and what the
    operating system answers to [putenv], which [os.environ[key] = value]
    calls before it records the value. *)
Record SetupWorld : Type := {
  dotenv_exists : bool;
  dotenv_open : result (list (result string));
  putenv : string -> string -> result unit
}.

(** What unpacking [key, value = ...] raises on a list that has not two
    items. *)
Definition unpack_error : exn :=
  LibraryError "not enough values to unpack (expected 2, got 1)".

Section SetupCheck.

Variable sw : SetupWorld.

(** The loop of [load_env] over the lines of the file. *)
Fixpoint load_lines (lines : list (result string)) (env : environ)
    : result unit * environ :=
  match lines with
  | [] => (Ok tt, env)
  | Raise e :: _ => (Raise e, env)
  | Ok raw :: rest =>
      let line := strip raw in
      if str_truthy line && negb (startswith_hash line) && contains_equals line
      then
        match split_equals_once line with
        | [key; value] =>
            match putenv sw key value with
            | Ok _ => load_lines rest (environ_set key value env)
            | Raise e => (Raise e, env)
            end
        | _ => (Raise unpack_error, env)
        end
      else load_lines rest env
  end.

Definition load_env (env : environ) : result unit * environ :=
  if dotenv_exists sw then
    match dotenv_open sw with
    | Ok lines => load_lines lines env
    | Raise e => (Raise e, env)
    end
  else (Ok tt, env).

End SetupCheck.

(** The lines the setup check prints. *)
Inductive report_line : Type :=
| ReportTitle                      (* "Environment Setup Test:" *)
| ReportEnvFile (found : bool)     (* ".env file exists: {...}" *)
| ReportKeyLoaded (loaded : bool)  (* "GROQ_API_KEY loaded: {bool(api_key)}" *)
| ReportKeyStart (start : string)  (* "API key starts with: {api_key[:10]}..." *)
| ReportModel (name : string).     (* "Model: {os.getenv('GROQ_MODEL', ...)}" *)

(** The script: [load_env()], then the report. *)
Definition test_env (sw : SetupWorld) (env : environ)
    : result (list report_line) * environ :=
  match load_env sw env with
  | (Raise e, env') => (Raise e, env')
  | (Ok _, env') =>
      let api_key := env' "GROQ_API_KEY" in
      (Ok ([ ReportTitle;
             ReportEnvFile (dotenv_exists sw);
             ReportKeyLoaded
               (match truthy_value api_key with Some _ => true | None => false end) ]
           ++ match truthy_value api_key with
              | Some key => [ReportKeyStart (substring 0 10 key)]
              | None => []
              end
           ++ [ ReportModel
                  (match env' "GROQ_MODEL" with
                   | Some name => name
                   | None => "llama3-70b-8192"
                   end) ]),
       env')
  end.

(** ** Vocabulary for the setup check *)

Fixpoint all_space (s : string) : bool :=
  match s with
  | EmptyString => true
  | String c s' => is_space c && all_space s'
  end.

(** A line that [load_env] passes over: blank, a comment, or without
    ['=']. *)
Definition is_ignored (raw : string) : bool :=
  negb (str_truthy (strip raw))
  || startswith_hash (strip raw)
  || negb (contains_equals (strip raw)).

(** The setting a line makes: nothing for a line that is passed over,
    else the text before the first ['='] and the text after it. *)
Definition setting_of (raw : string) : option (string * string) :=
  if is_ignored raw then None
  else
    match split_equals_once (strip raw) with
    | [key; value] => Some (key, value)
    | _ => None
    end.


Module SetupExample.

Definition newline : string := String (ascii_of_nat 10) EmptyString.

Definition dotenv : list string :=
  [ ("# Groq settings" ++ newline)%string;
    newline;
    ("GROQ_API_KEY=gsk_0123456789abcdef" ++ newline)%string;
    ("  GROQ_MODEL = llama3-8b-8192  " ++ newline)%string;
    ("export nothing" ++ newline)%string;
    ("GROQ_API_KEY=gsk_second=choice" ++ newline)%string ].

Definition no_file : SetupWorld :=
  {| dotenv_exists := false;
     dotenv_open := Raise (LibraryError "No such file or directory");
     putenv := fun _ _ => Ok tt |}.

Definition with_file (raws : list string) : SetupWorld :=
  {| dotenv_exists := true;
     dotenv_open := Ok (map Ok raws);
     putenv := fun _ _ => Ok tt |}.

Definition empty_environ : environ := fun _ => None.

End SetupExample.

Module MoreExamples.

Import Example.

(** The scenario on a disk that is full: the output file opens, the write
    fails. *)
Definition full_disk : World :=
  {| path_exists := path_exists scenario;
     getenv := getenv scenario;
     pdf_open := pdf_open scenario;
     http_post := http_post scenario;
     file_open_w := fun _ => Ok tt;
     file_write := fun _ _ => Raise (LibraryError "No space left on device") |}.

(** The scenario with the key in the environment. *)
Definition scenario_with_env : World :=
  world statement_pdf key_in_env
    (in_turn [ answer 200 ("[" ++ coffee_text ++ "]"); answer 200 "[]" ]).

Definition args_with_key : Args :=
  {| pdf_file := "statement.pdf";
     output := "transactions.json";
     arg_api_key := Some "secret";
     arg_model := default_model |}.

Definition args_missing_pdf : Args :=
  {| pdf_file := "missing.pdf";
     output := "transactions.json";
     arg_api_key := Some "secret";
     arg_model := default_model |}.

(** An answer with status 200 whose body is an empty object. *)
Definition empty_body : response :=
  {| status_code := 200; text := "{}"; body_json := Ok (JObj []) |}.

Definition answering_empty_body : World :=
  world one_page no_env (in_turn [ Ok empty_body ]).

Definition second_text : string := "Closing balance 96.50".

End MoreExamples.

(** * Properties *)

Ltac run_monad :=
  unfold bind, try_except, with_block, print, emit, lift, ret, requests_post;
  simpl.

Section Library.

Variable json_loads : string -> result json.
Variable json_dumps : json -> string.
Variable path_str : string -> string.

Section OneWorld.

Variable w : World.

(** *** The Extractor *)

Lemma texts_of_filter (raws : list (option string)) :
  map Some (texts_of raws) = filter has_text raws.
Proof.
  induction raws as [|[s|] rest IH]; simpl; auto.
  destruct (String.eqb s ""); simpl; congruence.
Qed.

(** The loop over pages that all parse keeps the non-empty texts. *)
Lemma for_each_page_parsed (pdf_path : string) (raws : list (option string)) :
  forall index pages_text n,
  exists t,
    for_each_page pdf_path (map page_of raws) index pages_text n
    = (Ok (pages_text ++ texts_of raws), t, n)
    /\ forallb (is_pdf_read pdf_path) t = true.
Proof.
  induction raws as [|raw rest IH]; intros index pages_text n.
  - exists []. simpl. unfold ret. now rewrite app_nil_r.
  - destruct (IH (S index)
                (match truthy_value raw with
                 | Some s => pages_text ++ [s]
                 | None => pages_text
                 end) n) as [t [Hrun Hread]].
    exists (EvPdfExtractText pdf_path index :: t).
    split.
    + cbn [map for_each_page page_of extract_text]. run_monad. rewrite Hrun.
      destruct raw as [[|c s]|]; simpl; rewrite <- ?app_assoc; reflexivity.
    + simpl. now rewrite String.eqb_refl.
Qed.

(** The loop over pages one of which does not parse raises, whatever was
    kept before. *)
Lemma for_each_page_raises (pdf_path : string) (ps : list page) :
  existsb page_raises ps = true ->
  forall index pages_text n,
  exists e t,
    for_each_page pdf_path ps index pages_text n = (Raise e, t, n)
    /\ forallb (is_pdf_read pdf_path) t = true.
Proof.
  induction ps as [|p rest IH]; simpl; intros Hex index pages_text n.
  - discriminate.
  - unfold page_raises in Hex at 1. run_monad.
    destruct (extract_text p) as [raw|e] eqn:Hp.
    + destruct (IH Hex (S index)
                  (match truthy_value raw with
                   | Some s => pages_text ++ [s]
                   | None => pages_text
                   end) n) as [e [t [Hrun Hread]]].
      rewrite Hrun. exists e, (EvPdfExtractText pdf_path index :: t).
      split; [reflexivity|]. simpl. now rewrite String.eqb_refl.
    + exists e, [EvPdfExtractText pdf_path index].
      split; [reflexivity|]. simpl. now rewrite String.eqb_refl.
Qed.

Lemma for_each_page_events (pdf_path : string) (ps : list page) :
  forall index pages_text n,
  exists r t,
    for_each_page pdf_path ps index pages_text n = (r, t, n)
    /\ forallb (is_pdf_read pdf_path) t = true.
Proof.
  induction ps as [|p rest IH]; simpl; intros index pages_text n.
  - exists (Ok pages_text), []. now unfold ret.
  - run_monad. destruct (extract_text p) as [raw|e].
    + destruct (IH (S index)
                  (match truthy_value raw with
                   | Some s => pages_text ++ [s]
                   | None => pages_text
                   end) n) as [r [t [Hrun Hread]]].
      rewrite Hrun. exists r, (EvPdfExtractText pdf_path index :: t).
      split; [reflexivity|]. simpl. now rewrite String.eqb_refl.
    + exists (Raise e), [EvPdfExtractText pdf_path index].
      split; [reflexivity|]. simpl. now rewrite String.eqb_refl.
Qed.

(** The Extractor always returns: it raises nothing, sends no request and
    only reads the document and prints. *)
Lemma extract_text_from_pdf_returns (self : TransactionProcessor)
    (pdf_path : string) (n : nat) :
  exists pages_text t,
    extract_text_from_pdf w self pdf_path n = (Ok pages_text, t, n)
    /\ forallb (fun e => is_pdf_read pdf_path e || is_print e) t = true.
Proof.
  unfold extract_text_from_pdf. run_monad.
  destruct (pdf_open w pdf_path) as [doc|e].
  - destruct (pages doc) as [ps|e].
    + destruct (for_each_page_events pdf_path ps 0 [] n) as [r [t [Hrun Hread]]].
      rewrite Hrun.
      assert (Hall : forallb (fun e => is_pdf_read pdf_path e || is_print e)
                       (t ++ [EvPdfClose pdf_path]) = true).
      { rewrite forallb_app. simpl. rewrite String.eqb_refl. simpl.
        rewrite andb_true_r. rewrite forallb_forall in *.
        intros x Hx. now rewrite (Hread x Hx). }
      destruct r as [l|e].
      * exists l. eexists. split; [reflexivity|].
        simpl. rewrite !String.eqb_refl. exact Hall.
      * exists []. eexists. split; [reflexivity|].
        simpl. rewrite !String.eqb_refl. simpl.
        rewrite forallb_app. rewrite Hall. reflexivity.
    + exists []. eexists. split; [reflexivity|].
      simpl. now rewrite !String.eqb_refl.
  - exists []. eexists. split; [reflexivity|].
    simpl. now rewrite !String.eqb_refl.
Qed.

(** C4. A document that opens and whose pages all parse gives the texts
    of the pages whose raw text is non-empty, in page order and nothing for
    the other pages; so the output is no longer than the page count and
    as long as the number of pages with non-empty raw text. *)
Theorem extract_text_from_pdf_nonempty_pages (self : TransactionProcessor)
    (pdf_path : string) (doc : pdf) (raws : list (option string)) (n : nat) :
  pdf_open w pdf_path = Ok doc ->
  pages doc = Ok (map page_of raws) ->
  exists t,
    extract_text_from_pdf w self pdf_path n = (Ok (texts_of raws), t, n)
    /\ map Some (texts_of raws) = filter has_text raws
    /\ length (texts_of raws) <= length raws
    /\ length (texts_of raws) = length (filter has_text raws).
Proof.
  intros Hopen Hpages.
  destruct (for_each_page_parsed pdf_path raws 0 [] n) as [t [Hrun _]].
  exists (EvPdfOpen pdf_path :: EvPdfPages pdf_path :: t ++ [EvPdfClose pdf_path]).
  assert (Hlen : length (texts_of raws) = length (filter has_text raws)).
  { rewrite <- texts_of_filter. now rewrite length_map. }
  repeat split.
  - unfold extract_text_from_pdf. run_monad.
    rewrite Hopen, Hpages, Hrun. reflexivity.
  - apply texts_of_filter.
  - rewrite Hlen. apply filter_length_le.
  - exact Hlen.
Qed.

(** C8. When opening the document, listing its pages or extracting any
    page raises, also after earlier pages were extracted, the Extractor
    returns the empty list, raises nothing, and does nothing but read the
    document and print one diagnostic. *)
Theorem extract_text_from_pdf_fails_soft (self : TransactionProcessor)
    (pdf_path : string) (n : nat) :
  pdf_raises w pdf_path = true ->
  exists e t,
    extract_text_from_pdf w self pdf_path n
    = (Ok [], t ++ [EvPrint (PrintErrorReadingPdf e)], n)
    /\ forallb (is_pdf_read pdf_path) t = true.
Proof.
  unfold pdf_raises, extract_text_from_pdf. run_monad.
  destruct (pdf_open w pdf_path) as [doc|e].
  - destruct (pages doc) as [ps|e].
    + intros Hex.
      destruct (for_each_page_raises pdf_path ps Hex 0 [] n) as [e [t [Hrun Hread]]].
      rewrite Hrun.
      exists e, (EvPdfOpen pdf_path :: EvPdfPages pdf_path :: t ++ [EvPdfClose pdf_path]).
      split.
      * simpl. now rewrite <- app_assoc.
      * simpl. rewrite !String.eqb_refl. simpl.
        rewrite forallb_app, Hread. simpl. now rewrite String.eqb_refl.
    + intros _.
      exists e, [EvPdfOpen pdf_path; EvPdfPages pdf_path; EvPdfClose pdf_path].
      split; [reflexivity|]. simpl. now rewrite !String.eqb_refl.
  - intros _. exists e, [EvPdfOpen pdf_path].
    split; [reflexivity|]. simpl. now rewrite !String.eqb_refl.
Qed.

(** *** The Client *)

(** The Client always returns, after exactly one request; it prints at
    most one line, and when it prints, what it returns is the empty
    list. *)
Lemma extract_transactions_from_text_returns (self : TransactionProcessor)
    (text_chunk : string) (n : nat) :
  exists v t,
    extract_transactions_from_text json_loads w self text_chunk n
    = (Ok v, post_of self text_chunk :: t, S n)
    /\ forallb is_print t = true
    /\ (t = [] \/ v = JArr []).
Proof.
  unfold extract_transactions_from_text, post_of. run_monad.
  destruct (http_post w n _ _ _) as [r|e].
  - destruct (status_code r =? 200)%Z.
    + destruct (body_json r) as [body|e].
      * destruct (completion_content body) as [content|e].
        -- destruct (py_json_loads json_loads content) as [v|e].
           ++ exists v, []. auto.
           ++ exists (JArr []). eexists. repeat split; auto.
        -- exists (JArr []). eexists. repeat split; auto.
      * exists (JArr []). eexists. repeat split; auto.
    + exists (JArr []). eexists. repeat split; auto.
  - exists (JArr []). eexists. repeat split; auto.
Qed.

(** One turn of the loop of [process_pdf]. *)
Lemma for_each_text_cons (self : TransactionProcessor) (total : nat)
    (text_chunk : string) (rest : list string) (i : nat)
    (all_transactions : list json) (n : nat) :
  exists v tc,
    extract_transactions_from_text json_loads w self text_chunk n
    = (Ok v, post_of self text_chunk :: tc, S n)
    /\ forallb is_print tc = true
    /\ for_each_text json_loads w self total (text_chunk :: rest) i
         all_transactions n
       = match list_extend all_transactions v with
         | Ok all_transactions' =>
             match for_each_text json_loads w self total rest (S i)
                     all_transactions' (S n) with
             | (r, t, n') =>
                 (r,
                  EvPrint (PrintProcessingPage i total)
                  :: post_of self text_chunk
                  :: tc ++ EvSleep (rate_limit_delay self) :: t,
                  n')
             end
         | Raise e =>
             (Raise e,
              EvPrint (PrintProcessingPage i total)
              :: post_of self text_chunk :: tc,
              S n)
         end.
Proof.
  destruct (extract_transactions_from_text_returns self text_chunk n)
    as [v [tc [Hcall [Hprint _]]]].
  exists v, tc. repeat split; auto.
  cbn [for_each_text]. unfold bind at 1. unfold print, emit.
  unfold bind at 1. rewrite Hcall.
  unfold bind, lift, emit.
  destruct (list_extend all_transactions v) as [all'|e].
  - destruct (for_each_text json_loads w self total rest (S i) all' (S n))
      as [[r t] n'].
    simpl. rewrite ?app_nil_r. reflexivity.
  - simpl. rewrite ?app_nil_r. reflexivity.
Qed.

(** C6. When the request gets no answer, or an answer whose status is not
    200, or a completion whose content does not parse as JSON, the Client
    returns the empty list after that single request and one diagnostic:
    it raises nothing and does not ask again.  The loop of [process_pdf]
    then goes on to the next page with the collection it had. *)
Theorem extract_transactions_from_text_failure_is_empty
    (self : TransactionProcessor) (text_chunk : string) (n : nat) :
  client_call_fails json_loads
    (http_post w n (api_url self) (headers_of self)
       (data_of self (prompt_of text_chunk))) ->
  exists line,
    extract_transactions_from_text json_loads w self text_chunk n
    = (Ok (JArr []), [post_of self text_chunk; EvPrint line], S n)
    /\ forall total rest i all_transactions,
         for_each_text json_loads w self total (text_chunk :: rest) i
           all_transactions n
         = match for_each_text json_loads w self total rest (S i)
                   all_transactions (S n) with
           | (r, t, n') =>
               (r,
                [ EvPrint (PrintProcessingPage i total);
                  post_of self text_chunk;
                  EvPrint line;
                  EvSleep (rate_limit_delay self) ] ++ t,
                n')
           end.
Proof.
  intros Hfail.
  assert (Hcall : exists line,
             extract_transactions_from_text json_loads w self text_chunk n
             = (Ok (JArr []), [post_of self text_chunk; EvPrint line], S n)).
  { unfold extract_transactions_from_text, post_of. run_monad.
    destruct Hfail as [[e He] | [[r [Hr Hs]] | [r [body [content [e H]]]]]].
    - rewrite He. simpl. eauto.
    - rewrite Hr. apply Z.eqb_neq in Hs. rewrite Hs. simpl. eauto.
    - destruct H as [Hr [Hs [Hb [Hc Hl]]]].
      rewrite Hr, Hs. simpl. rewrite Hb, Hc. simpl. rewrite Hl. simpl.
      eauto. }
  destruct Hcall as [line Hcall]. exists line. split; [exact Hcall|].
  intros total rest i all_transactions.
  destruct (for_each_text_cons self total text_chunk rest i all_transactions n)
    as [v [tc [Hcall' [_ Hloop]]]].
  rewrite Hcall in Hcall'. injection Hcall' as <- <-.
  rewrite Hloop. unfold list_extend. simpl. rewrite app_nil_r.
  reflexivity.
Qed.

(** *** The Orchestrator *)

(** A loop that ends has gathered, after what it started with, the items
    of what the Client returned for each page, in page order. *)
Lemma for_each_text_collects (self : TransactionProcessor) (total : nat)
    (texts : list string) :
  forall i acc n all t n',
    for_each_text json_loads w self total texts i acc n = (Ok all, t, n') ->
    exists seqs,
      Forall2 returns_sequence (client_results json_loads w self n texts) seqs
      /\ all = acc ++ concat seqs.
Proof.
  induction texts as [|text_chunk rest IH]; intros i acc n all t n' Hrun.
  - simpl in Hrun. unfold ret in Hrun. injection Hrun as <- _ _.
    exists []. split; [constructor | now rewrite app_nil_r].
  - destruct (for_each_text_cons self total text_chunk rest i acc n)
      as [v [tc [Hcall [_ Hloop]]]].
    rewrite Hloop in Hrun. unfold list_extend in Hrun.
    destruct (py_iter v) as [items|e] eqn:Hiter; [|discriminate].
    destruct (for_each_text json_loads w self total rest (S i) (acc ++ items) (S n))
      as [[r t'] n''] eqn:Hrest.
    injection Hrun as -> _ _.
    destruct (IH _ _ _ _ _ _ Hrest) as [seqs [Hseqs Hall]].
    exists (items :: seqs). split.
    + cbn [client_results]. constructor; [|exact Hseqs].
      exists v. rewrite Hcall. auto.
    + simpl. rewrite Hall. now rewrite app_assoc.
Qed.

(** The calls of a loop: prints, requests and delays only; when the loop
    ends, a request and then a delay for every page, in page order. *)
Lemma for_each_text_events (self : TransactionProcessor) (total : nat)
    (texts : list string) :
  forall i acc n r t n',
    for_each_text json_loads w self total texts i acc n = (r, t, n') ->
    forallb (fun e => is_print e || is_request_or_delay e) t = true
    /\ forall all, r = Ok all ->
         filter is_request_or_delay t = requests_and_delays self texts.
Proof.
  induction texts as [|text_chunk rest IH]; intros i acc n r t n' Hrun.
  - simpl in Hrun. unfold ret in Hrun. injection Hrun as <- <- _. auto.
  - destruct (for_each_text_cons self total text_chunk rest i acc n)
      as [v [tc [_ [Hprint Hloop]]]].
    rewrite Hloop in Hrun. clear Hloop.
    assert (Htc : forallb (fun e => is_print e || is_request_or_delay e) tc = true).
    { rewrite forallb_forall in *. intros x Hx. now rewrite (Hprint x Hx). }
    assert (Hnone : filter is_request_or_delay tc = []).
    { clear - Hprint. induction tc as [|x tc IH]; [reflexivity|].
      simpl in Hprint. apply andb_true_iff in Hprint as [Hx Htc].
      simpl. destruct x; try discriminate. simpl. auto. }
    destruct (list_extend acc v) as [acc'|e].
    + destruct (for_each_text json_loads w self total rest (S i) acc' (S n))
        as [[r' t'] n''] eqn:Hrest.
      injection Hrun as <- <- _.
      destruct (IH _ _ _ _ _ _ Hrest) as [Hkinds Hfilter].
      split.
      * simpl. rewrite forallb_app, Htc. simpl. exact Hkinds.
      * intros all Hr. simpl. rewrite filter_app, Hnone. simpl.
        now rewrite (Hfilter all Hr).
    + injection Hrun as <- <- _. split; [|discriminate].
      simpl. exact Htc.
Qed.

(** Saving gives a boolean and raises nothing; when it gives [True], the
    text of the whole collection was written to the output file, once. *)
Lemma save_step_returns (output_path : string) (all_transactions : list json)
    (n : nat) :
  exists b ts,
    save_step json_dumps w output_path all_transactions n = (Ok b, ts, n)
    /\ (b = true ->
        written output_path ts = [json_dumps (JArr all_transactions)])
    /\ forallb (fun e => writes_file e || is_print e) ts = true.
Proof.
  unfold save_step. run_monad.
  destruct (file_open_w w output_path) as [[]|e]; simpl.
  - destruct (file_write w output_path _) as [[]|e]; simpl.
    + eexists _, _. split; [reflexivity|]. split; [|reflexivity].
      intros _. simpl. now rewrite String.eqb_refl.
    + eexists _, _. split; [reflexivity|]. split; [discriminate|reflexivity].
  - eexists _, _. split; [reflexivity|]. split; [discriminate|reflexivity].
Qed.

Lemma written_app (path : string) (t1 t2 : trace) :
  written path (t1 ++ t2) = written path t1 ++ written path t2.
Proof.
  induction t1 as [|e t1 IH]; [reflexivity|].
  destruct e; simpl; auto.
  destruct (String.eqb path0 path); simpl; congruence.
Qed.

Lemma written_none (path : string) (t : trace) :
  forallb (fun e => negb (writes_file e)) t = true -> written path t = [].
Proof.
  induction t as [|e t IH]; [reflexivity|].
  simpl. intros H. apply andb_true_iff in H as [He Ht].
  destruct e; simpl in *; auto. discriminate.
Qed.

Lemma forallb_impl {A : Type} (f g : A -> bool) (l : list A) :
  (forall x, f x = true -> g x = true) ->
  forallb f l = true -> forallb g l = true.
Proof.
  intros Hfg H. rewrite forallb_forall in *. auto.
Qed.

(** The steps of [process_pdf], by what the Extractor and the loop
    give. *)
Lemma process_pdf_steps (self : TransactionProcessor)
    (pdf_path output_path : string) (n : nat) :
  exists pages_text te,
    extract_text_from_pdf w self pdf_path n = (Ok pages_text, te, n)
    /\ forallb (fun e => is_pdf_read pdf_path e || is_print e) te = true
    /\ process_pdf json_loads json_dumps w self pdf_path output_path n
       = match pages_text with
         | [] =>
             (Ok false,
              EvPrint (PrintProcessingPdf pdf_path)
              :: te ++ [EvPrint PrintFailedToExtract],
              n)
         | _ :: _ =>
             match for_each_text json_loads w self (length pages_text)
                     pages_text 1 [] n with
             | (Raise e, tl, n') =>
                 (Raise e,
                  EvPrint (PrintProcessingPdf pdf_path)
                  :: te ++ EvPrint (PrintExtractedPages (length pages_text))
                  :: tl,
                  n')
             | (Ok [], tl, n') =>
                 (Ok false,
                  EvPrint (PrintProcessingPdf pdf_path)
                  :: te ++ EvPrint (PrintExtractedPages (length pages_text))
                  :: tl ++ [EvPrint PrintNoTransactions],
                  n')
             | (Ok (x :: l), tl, n') =>
                 match save_step json_dumps w output_path (x :: l) n' with
                 | (r, ts, n'') =>
                     (r,
                      EvPrint (PrintProcessingPdf pdf_path)
                      :: te ++ EvPrint (PrintExtractedPages (length pages_text))
                      :: tl ++ EvPrint (PrintExtracted (length (x :: l)))
                      :: ts,
                      n'')
                 end
             end
         end.
Proof.
  destruct (extract_text_from_pdf_returns self pdf_path n)
    as [pages_text [te [Hextract Hte]]].
  exists pages_text, te. repeat split; auto.
  unfold process_pdf.
  unfold bind at 1. unfold print, emit. unfold bind at 1.
  rewrite Hextract.
  destruct pages_text as [|p ps].
  - simpl. unfold bind, ret. reflexivity.
  - cbn [list_truthy negb]. unfold bind at 1. unfold bind at 1.
    destruct (for_each_text json_loads w self (length (p :: ps)) (p :: ps) 1 [] n)
      as [[[all|e] tl] n'].
    + destruct all as [|x l].
      * simpl. unfold bind, ret. simpl. reflexivity.
      * cbn [list_truthy negb]. unfold bind at 1.
        unfold save_step, print, emit.
        match goal with
        | |- context [try_except ?body ?handler n'] =>
            destruct (try_except body handler n') as [[r ts] n'']
        end.
        reflexivity.
    + reflexivity.
Qed.

(** A successful run: the Extractor gave pages, the loop ended with a
    collection that is not empty, and that collection is what was written
    to the output file. *)
Lemma process_pdf_success (self : TransactionProcessor)
    (pdf_path output_path : string) (n : nat) (t : trace) (n' : nat) :
  process_pdf json_loads json_dumps w self pdf_path output_path n
  = (Ok true, t, n') ->
  exists pages_text te all tl,
    extract_text_from_pdf w self pdf_path n = (Ok pages_text, te, n)
    /\ for_each_text json_loads w self (length pages_text) pages_text 1 [] n
       = (Ok all, tl, n')
    /\ written output_path t = [json_dumps (JArr all)].
Proof.
  intros Hrun.
  destruct (process_pdf_steps self pdf_path output_path n)
    as [pages_text [te [Hextract [Hte Hsteps]]]].
  rewrite Hsteps in Hrun. clear Hsteps.
  destruct pages_text as [|p ps]; [discriminate|].
  destruct (for_each_text json_loads w self (length (p :: ps)) (p :: ps) 1 [] n)
    as [[[all|e] tl] n1] eqn:Hloop; [|discriminate].
  destruct all as [|x l]; [discriminate|].
  destruct (save_step_returns output_path (x :: l) n1)
    as [b [ts [Hsave [Hwritten _]]]].
  rewrite Hsave in Hrun. injection Hrun as -> <- <-.
  exists (p :: ps), te, (x :: l), tl. repeat split; auto.
  destruct (for_each_text_events _ _ _ _ _ _ Hloop) as [Htl _].
  cbn [written]. rewrite written_app. cbn [written].
  rewrite written_app. cbn [written]. rewrite (Hwritten eq_refl).
  rewrite (written_none output_path te), (written_none output_path tl).
  - reflexivity.
  - revert Htl. apply forallb_impl. intros [] H; auto; discriminate.
  - revert Hte. apply forallb_impl. intros [] H; auto; discriminate.
Qed.

Lemma chars_list_ascii (s : string) :
  chars s = map (fun c => JStr (String c EmptyString)) (list_ascii_of_string s).
Proof.
  induction s as [|c s IH]; simpl; congruence.
Qed.

Lemma py_iter_returned_items (v : json) (items : list json) :
  py_iter v = Ok items ->
  items = returned_items v
  /\ match v with
     | JArr _ | JObj _ | JStr _ => True
     | JNull | JBool _ | JInt _ | JFloat _ => False
     end.
Proof.
  destruct v; simpl; intros H; try discriminate; injection H as <-;
    split; auto using chars_list_ascii.
Qed.

(** What the loop gathered, by the values the Client returned. *)
Lemma returned_values (rs : list (result json)) (seqs : list (list json)) :
  Forall2 returns_sequence rs seqs ->
  exists values,
    rs = map Ok values
    /\ concat seqs = flat_map returned_items values
    /\ Forall
         (fun v =>
            match v with
            | JArr _ | JObj _ | JStr _ => True
            | JNull | JBool _ | JInt _ | JFloat _ => False
            end) values.
Proof.
  induction 1 as [|r s rs seqs [v [-> Hiter]] _ [values [-> [Hconcat Hkinds]]]].
  - exists []. repeat split. constructor.
  - destruct (py_iter_returned_items v Hiter) as [-> Hkind].
    exists (v :: values). simpl. rewrite Hconcat. repeat split.
    now constructor.
Qed.

Lemma flat_map_returned_lists (seqs : list (list json)) :
  flat_map returned_items (map JArr seqs) = concat seqs.
Proof.
  induction seqs as [|items seqs IH]; simpl; congruence.
Qed.

Lemma length_concat_sum (seqs : list (list json)) :
  length (concat seqs) = list_sum (map (@length json) seqs).
Proof.
  induction seqs as [|items seqs IH]; [reflexivity|].
  simpl. now rewrite length_app, IH.
Qed.

(** C3. In a successful run the Client returned a value for every
    extracted page, each of them a list, a dict or a str, and the array
    written to the output file is the concatenation, in page order, of
    what these values hold.  When the Client returned a list for every
    page, as it is meant to, the written array is the concatenation of
    these lists themselves, element for element: nothing is dropped,
    merged or moved, and its length is the sum of the per-page counts. *)
Theorem process_pdf_writes_concatenation (self : TransactionProcessor)
    (pdf_path output_path : string) (n : nat) (t : trace) (n' : nat) :
  process_pdf json_loads json_dumps w self pdf_path output_path n
  = (Ok true, t, n') ->
  exists pages_text values,
    value_of (extract_text_from_pdf w self pdf_path n) = Ok pages_text
    /\ client_results json_loads w self n pages_text = map Ok values
    /\ Forall
         (fun v =>
            match v with
            | JArr _ | JObj _ | JStr _ => True
            | JNull | JBool _ | JInt _ | JFloat _ => False
            end) values
    /\ written output_path t
       = [json_dumps (JArr (flat_map returned_items values))]
    /\ forall seqs,
         values = map JArr seqs ->
         written output_path t = [json_dumps (JArr (concat seqs))]
         /\ length (concat seqs) = list_sum (map (@length json) seqs).
Proof.
  intros Hrun.
  destruct (process_pdf_success _ _ _ _ Hrun)
    as [pages_text [te [all [tl [Hextract [Hloop Hwritten]]]]]].
  destruct (for_each_text_collects _ _ _ _ _ _ Hloop) as [seqs [Hseqs Hall]].
  simpl in Hall. subst all.
  destruct (returned_values Hseqs) as [values [Hvalues [Hconcat Hkinds]]].
  exists pages_text, values.
  split; [now rewrite Hextract|]. split; [exact Hvalues|].
  split; [exact Hkinds|].
  rewrite Hconcat in Hwritten. split; [exact Hwritten|].
  intros lists ->. rewrite flat_map_returned_lists in Hwritten.
  split; [exact Hwritten | apply length_concat_sum].
Qed.

Lemma in_concat_returned (rs : list (result json)) (seqs : list (list json)) :
  Forall2 returns_sequence rs seqs ->
  forall x, In x (concat seqs) ->
  exists v items, In (Ok v) rs /\ py_iter v = Ok items /\ In x items.
Proof.
  induction 1 as [|r s rs seqs [v [Hr Hiter]] _ IH]; intros x Hx.
  - destruct Hx.
  - simpl in Hx. apply in_app_or in Hx as [Hx|Hx].
    + exists v, s. subst r. simpl. auto.
    + destruct (IH x Hx) as [v' [items [Hin H]]].
      exists v', items. simpl. auto.
Qed.

(** C2, as the code has it.  In a successful run every element of the
    written array is an item of what the Client returned for some page,
    as the model gave it; the elements are Transaction Records when
    every value the Client returned is a list of Transaction Records. *)
Theorem process_pdf_elements_as_returned (self : TransactionProcessor)
    (pdf_path output_path : string) (n : nat) (t : trace) (n' : nat) :
  process_pdf json_loads json_dumps w self pdf_path output_path n
  = (Ok true, t, n') ->
  exists pages_text all,
    value_of (extract_text_from_pdf w self pdf_path n) = Ok pages_text
    /\ written output_path t = [json_dumps (JArr all)]
    /\ (forall x, In x all ->
        exists v items,
          In (Ok v) (client_results json_loads w self n pages_text)
          /\ py_iter v = Ok items /\ In x items)
    /\ ((forall v,
           In (Ok v) (client_results json_loads w self n pages_text) ->
           exists items,
             v = JArr items /\ forallb is_transaction_record items = true) ->
        forallb is_transaction_record all = true).
Proof.
  intros Hrun.
  destruct (process_pdf_success _ _ _ _ Hrun)
    as [pages_text [te [all [tl [Hextract [Hloop Hwritten]]]]]].
  destruct (for_each_text_collects _ _ _ _ _ _ Hloop) as [seqs [Hseqs Hall]].
  simpl in Hall. subst all.
  exists pages_text, (concat seqs).
  assert (Hfrom : forall x, In x (concat seqs) ->
            exists v items,
              In (Ok v) (client_results json_loads w self n pages_text)
              /\ py_iter v = Ok items /\ In x items)
    by (apply in_concat_returned; exact Hseqs).
  repeat split; auto.
  - now rewrite Hextract.
  - intros Hrecords. apply forallb_forall. intros x Hx.
    destruct (Hfrom x Hx) as [v [items [Hv [Hiter Hin]]]].
    destruct (Hrecords v Hv) as [items' [-> Hall]].
    simpl in Hiter. injection Hiter as ->.
    rewrite forallb_forall in Hall. auto.
Qed.

Lemma filter_none {A : Type} (f : A -> bool) (l : list A) :
  forallb (fun x => negb (f x)) l = true -> filter f l = [].
Proof.
  induction l as [|x l IH]; [reflexivity|].
  simpl. intros H. apply andb_true_iff in H as [Hx Hl].
  apply negb_true_iff in Hx. rewrite Hx. auto.
Qed.

Lemma run_processor_exit_code (key : string) (args : Args)
    (pdf_path : string) (n : nat) (b : bool) (t : trace) (n' : nat) :
  process_pdf json_loads json_dumps w (init key (arg_model args)) pdf_path
    (output args) n = (Ok b, t, n') ->
  value_of (run_processor json_loads json_dumps w key args pdf_path n)
  = Ok (if b then 0%Z else 1%Z).
Proof.
  intros Hrun. unfold run_processor, bind, ret. now rewrite Hrun.
Qed.

(** C5. When the Extractor gives no page, or the collection is empty
    once all pages are processed, [process_pdf] returns [False], which
    [main] turns into exit code 1, and no call of the run creates or
    modifies a file. *)
Theorem process_pdf_aborts_without_output (self : TransactionProcessor)
    (pdf_path output_path : string) (n : nat) :
  (value_of (extract_text_from_pdf w self pdf_path n) = Ok []
   \/ exists pages_text,
        value_of (extract_text_from_pdf w self pdf_path n) = Ok pages_text
        /\ value_of (for_each_text json_loads w self (length pages_text)
                       pages_text 1 [] n) = Ok []) ->
  value_of (process_pdf json_loads json_dumps w self pdf_path output_path n)
  = Ok false
  /\ forallb (fun e => negb (writes_file e))
       (events_of
          (process_pdf json_loads json_dumps w self pdf_path output_path n))
     = true
  /\ forall key args,
       self = init key (arg_model args) ->
       output_path = output args ->
       value_of (run_processor json_loads json_dumps w key args pdf_path n)
       = Ok 1%Z.
Proof.
  intros Hempty.
  assert (Hrun : exists t n',
             process_pdf json_loads json_dumps w self pdf_path output_path n
             = (Ok false, t, n')
             /\ forallb (fun e => negb (writes_file e)) t = true).
  { destruct (process_pdf_steps self pdf_path output_path n)
      as [pages_text [te [Hextract [Hte Hsteps]]]].
    rewrite Hsteps. clear Hsteps. rewrite Hextract in Hempty.
    assert (Hte' : forallb (fun e => negb (writes_file e)) te = true).
    { revert Hte. apply forallb_impl. intros [] H; auto; discriminate. }
    assert (Hloop : pages_text = []
                    \/ value_of (for_each_text json_loads w self
                                   (length pages_text) pages_text 1 [] n)
                       = Ok []).
    { destruct Hempty as [H | [l [H1 H2]]].
      - left. now injection H.
      - right. injection H1 as <-. exact H2. }
    clear Hempty. destruct pages_text as [|p ps].
    - eexists _, _. split; [reflexivity|].
      simpl. rewrite forallb_app, Hte'. reflexivity.
    - destruct Hloop as [H|Hloop]; [discriminate|].
      destruct (for_each_text json_loads w self (length (p :: ps)) (p :: ps) 1 [] n)
        as [[r tl] n1] eqn:Hfor.
      unfold value_of in Hloop. simpl in Hloop. subst r.
      destruct (for_each_text_events _ _ _ _ _ _ Hfor) as [Htl _].
      eexists _, _. split; [reflexivity|].
      simpl. rewrite forallb_app, Hte'. simpl. rewrite forallb_app.
      simpl. rewrite andb_true_r.
      revert Htl. apply forallb_impl. intros [] H; auto; discriminate. }
  destruct Hrun as [t [n' [Hrun Hfiles]]].
  rewrite Hrun. repeat split; auto.
  intros key args -> ->.
  now rewrite (run_processor_exit_code _ _ _ _ Hrun).
Qed.

Lemma filter_sleep_requests_and_delays (self : TransactionProcessor)
    (texts : list string) :
  filter is_sleep (requests_and_delays self texts)
  = repeat (EvSleep (rate_limit_delay self)) (length texts).
Proof.
  induction texts as [|x texts IH]; [reflexivity|].
  simpl. now rewrite <- IH.
Qed.

Lemma filter_sleep_of_requests_and_delays (t : trace) :
  filter is_sleep (filter is_request_or_delay t) = filter is_sleep t.
Proof.
  induction t as [|e t IH]; [reflexivity|].
  destruct e; simpl; auto. now rewrite IH.
Qed.

(** The delays of a run that returns.  A run of [process_pdf] over [n >= 1]
    extracted pages that returns, with [True] or with [False], has sent
    one request per page and made one delay of 8 seconds after each of
    them, the last one included, and no other delay: [n] delays in all,
    whatever the answers to the requests were. *)
Theorem process_pdf_delays_after_every_page (key mdl : string)
    (pdf_path output_path : string) (n : nat) (pages_text : list string)
    (b : bool) (t : trace) (n' : nat) :
  value_of (extract_text_from_pdf w (init key mdl) pdf_path n) = Ok pages_text ->
  1 <= length pages_text ->
  process_pdf json_loads json_dumps w (init key mdl) pdf_path output_path n
  = (Ok b, t, n') ->
  filter is_request_or_delay t = requests_and_delays (init key mdl) pages_text
  /\ filter is_sleep t = repeat (EvSleep 8) (length pages_text).
Proof.
  intros Hpages Hlen Hrun.
  assert (Hfilter : filter is_request_or_delay t
                    = requests_and_delays (init key mdl) pages_text).
  { destruct (process_pdf_steps (init key mdl) pdf_path output_path n)
      as [pages_text' [te [Hextract [Hte Hsteps]]]].
    rewrite Hextract in Hpages. injection Hpages as ->.
    rewrite Hsteps in Hrun. clear Hsteps.
    assert (Hte' : filter is_request_or_delay te = []).
    { apply filter_none. revert Hte. apply forallb_impl.
      intros [] H; auto; discriminate. }
    destruct pages_text as [|p ps]; [simpl in Hlen; lia|].
    destruct (for_each_text json_loads w (init key mdl) (length (p :: ps))
                (p :: ps) 1 [] n)
      as [[[all|e] tl] n1] eqn:Hloop; [|discriminate].
    destruct (for_each_text_events _ _ _ _ _ _ Hloop) as [_ Htl].
    specialize (Htl all eq_refl).
    destruct all as [|x l].
    - injection Hrun as _ <- _.
      cbn [filter is_request_or_delay is_http_post is_sleep orb].
      rewrite filter_app, Hte'. cbn [app filter is_request_or_delay is_http_post is_sleep orb].
      rewrite filter_app, Htl. cbn [filter is_request_or_delay is_http_post is_sleep orb].
      now rewrite app_nil_r.
    - destruct (save_step_returns output_path (x :: l) n1)
        as [b' [ts [Hsave [_ Hts]]]].
      rewrite Hsave in Hrun. injection Hrun as _ <- _.
      assert (Hts' : filter is_request_or_delay ts = []).
      { apply filter_none. revert Hts. apply forallb_impl.
        intros [] H; auto; discriminate. }
      cbn [filter is_request_or_delay is_http_post is_sleep orb].
      rewrite filter_app, Hte'. cbn [app filter is_request_or_delay is_http_post is_sleep orb].
      rewrite filter_app, Htl. cbn [filter is_request_or_delay is_http_post is_sleep orb].
      rewrite Hts'. now rewrite app_nil_r. }
  split; [exact Hfilter|].
  rewrite <- filter_sleep_of_requests_and_delays, Hfilter.
  apply filter_sleep_requests_and_delays.
Qed.

(** C10. When the answer has status 200 and its completion content is
    the JSON text of an object, the Client returns that object as it is;
    the loop of [process_pdf] then appends the keys of the object, as
    strings, to the collection, and a run over that single page writes
    the keys as the output array: nothing checks that what the Client
    returned is a list of Transaction Records. *)
Theorem object_answer_appends_keys (self : TransactionProcessor)
    (text_chunk : string) (n : nat) (r : response) (body : json)
    (content : string) (fields : list (string * json)) :
  http_post w n (api_url self) (headers_of self)
    (data_of self (prompt_of text_chunk)) = Ok r ->
  status_code r = 200%Z ->
  body_json r = Ok body ->
  completion_content body = Ok (JStr content) ->
  json_loads content = Ok (JObj fields) ->
  extract_transactions_from_text json_loads w self text_chunk n
  = (Ok (JObj fields), [post_of self text_chunk], S n)
  /\ (forall total rest i all_transactions,
        for_each_text json_loads w self total (text_chunk :: rest) i
          all_transactions n
        = match for_each_text json_loads w self total rest (S i)
                  (all_transactions ++ map (fun kv => JStr (fst kv)) fields)
                  (S n) with
          | (r', t, n') =>
              (r',
               [ EvPrint (PrintProcessingPage i total);
                 post_of self text_chunk;
                 EvSleep (rate_limit_delay self) ] ++ t,
               n')
          end)
  /\ (forall pdf_path output_path,
        value_of (extract_text_from_pdf w self pdf_path n) = Ok [text_chunk] ->
        fields <> [] ->
        file_open_w w output_path = Ok tt ->
        written output_path
          (events_of
             (process_pdf json_loads json_dumps w self pdf_path output_path n))
        = [json_dumps (JArr (map (fun kv => JStr (fst kv)) fields))]).
Proof.
  intros Hr Hs Hb Hc Hl.
  assert (Hcall : extract_transactions_from_text json_loads w self text_chunk n
                  = (Ok (JObj fields), [post_of self text_chunk], S n)).
  { unfold extract_transactions_from_text, post_of. run_monad.
    rewrite Hr, Hs. simpl. rewrite Hb, Hc. simpl. now rewrite Hl. }
  assert (Hstep : forall total rest i all_transactions,
             for_each_text json_loads w self total (text_chunk :: rest) i
               all_transactions n
             = match for_each_text json_loads w self total rest (S i)
                       (all_transactions ++ map (fun kv => JStr (fst kv)) fields)
                       (S n) with
               | (r', t, n') =>
                   (r',
                    [ EvPrint (PrintProcessingPage i total);
                      post_of self text_chunk;
                      EvSleep (rate_limit_delay self) ] ++ t,
                    n')
               end).
  { intros total rest i all_transactions.
    destruct (for_each_text_cons self total text_chunk rest i all_transactions n)
      as [v [tc [Hcall' [_ Hloop]]]].
    rewrite Hcall in Hcall'. injection Hcall' as <- <-.
    rewrite Hloop. reflexivity. }
  repeat split; auto.
  intros pdf_path output_path Hpages Hfields Hopen.
  destruct (process_pdf_steps self pdf_path output_path n)
    as [pages_text [te [Hextract [Hte Hsteps]]]].
  rewrite Hextract in Hpages. injection Hpages as ->.
  rewrite Hsteps, Hstep. clear Hsteps.
  cbn [for_each_text]. unfold ret. cbn [app].
  destruct fields as [|[k x] fields]; [congruence|].
  cbn [map fst]. unfold save_step. run_monad. rewrite Hopen.
  assert (Hte' : written output_path te = []).
  { apply written_none. revert Hte. apply forallb_impl.
    intros [] H; auto; discriminate. }
  destruct (file_write w output_path _) as [[]|e];
    unfold events_of; simpl; rewrite written_app, Hte'; simpl;
    now rewrite String.eqb_refl.
Qed.

(** C1, as the code has it.  With no [--api-key] and no [GROQ_API_KEY],
    [main] returns 1 after having checked that the PDF exists, which is
    the first thing it does, and looked up the variable when the file is
    there; it does not open or read the PDF and sends no request. *)
Theorem main_without_key_exits_1 (args : Args) (n : nat) :
  arg_api_key args = None ->
  getenv w "GROQ_API_KEY" = None ->
  main json_loads json_dumps path_str w args n
  = (Ok 1%Z,
     EvPathExists (path_str (pdf_file args))
     :: (if path_exists w (path_str (pdf_file args))
         then [EvGetenv "GROQ_API_KEY"; EvPrint PrintApiKeyRequired]
         else [EvPrint (PrintPdfNotFound (path_str (pdf_file args)))]),
     n)
  /\ forallb (fun e => negb (reads_pdf e) && negb (is_http_post e))
       (events_of (main json_loads json_dumps path_str w args n)) = true.
Proof.
  intros Hkey Henv.
  assert (Hmain : main json_loads json_dumps path_str w args n
                  = (Ok 1%Z,
                     EvPathExists (path_str (pdf_file args))
                     :: (if path_exists w (path_str (pdf_file args))
                         then [EvGetenv "GROQ_API_KEY"; EvPrint PrintApiKeyRequired]
                         else [EvPrint (PrintPdfNotFound (path_str (pdf_file args)))]),
                     n)).
  { unfold main. rewrite Hkey, Henv. run_monad.
    destruct (path_exists w (path_str (pdf_file args))); reflexivity. }
  split; [exact Hmain|].
  rewrite Hmain. unfold events_of. simpl.
  destruct (path_exists w (path_str (pdf_file args))); reflexivity.
Qed.

End OneWorld.

(** *** Two runs *)

(** The loop of the Extractor does not depend on the requests sent. *)
Lemma for_each_page_any_state (pdf_path : string) (ps : list page) :
  forall index pages_text n m,
    for_each_page pdf_path ps index pages_text m
    = (value_of (for_each_page pdf_path ps index pages_text n),
       events_of (for_each_page pdf_path ps index pages_text n),
       m).
Proof.
  induction ps as [|p rest IH]; intros index pages_text n m.
  - reflexivity.
  - cbn [for_each_page]. run_monad.
    destruct (extract_text p) as [raw|e]; [|reflexivity].
    rewrite (IH _ _ n m).
    destruct (for_each_page pdf_path rest (S index) _ n) as [[r t] n'].
    reflexivity.
Qed.

(** The Extractor gives the same pages in two worlds that hold the same
    document. *)
Lemma extract_text_from_pdf_same (w1 w2 : World) (self : TransactionProcessor)
    (pdf_path : string) (n1 n2 : nat) :
  pdf_open w1 pdf_path = pdf_open w2 pdf_path ->
  value_of (extract_text_from_pdf w1 self pdf_path n1)
  = value_of (extract_text_from_pdf w2 self pdf_path n2).
Proof.
  intros Hsame. unfold extract_text_from_pdf. run_monad. rewrite Hsame.
  destruct (pdf_open w2 pdf_path) as [doc|e]; [|reflexivity].
  destruct (pages doc) as [ps|e]; [|reflexivity].
  rewrite (for_each_page_any_state pdf_path ps 0 [] n1 n2).
  destruct (for_each_page pdf_path ps 0 [] n1) as [[[l|e] t] n'];
    reflexivity.
Qed.

(** The Client returns the same value on equal answers. *)
Lemma extract_transactions_from_text_same (w1 w2 : World)
    (self : TransactionProcessor) (text_chunk : string) (n1 n2 : nat) :
  http_post w1 n1 (api_url self) (headers_of self)
    (data_of self (prompt_of text_chunk))
  = http_post w2 n2 (api_url self) (headers_of self)
      (data_of self (prompt_of text_chunk)) ->
  value_of (extract_transactions_from_text json_loads w1 self text_chunk n1)
  = value_of (extract_transactions_from_text json_loads w2 self text_chunk n2).
Proof.
  intros Hsame. unfold extract_transactions_from_text. run_monad.
  rewrite Hsame.
  destruct (http_post w2 n2 _ _ _) as [r|e]; [|reflexivity].
  destruct (status_code r =? 200)%Z; [|reflexivity].
  destruct (body_json r) as [body|e]; [|reflexivity].
  destruct (completion_content body) as [content|e]; [|reflexivity].
  destruct (py_json_loads json_loads content); reflexivity.
Qed.

Lemma client_results_same (w1 w2 : World)
    (f : string -> list (string * string) -> json -> result response)
    (self : TransactionProcessor) (texts : list string) :
  model_is w1 f -> model_is w2 f ->
  forall n1 n2,
    client_results json_loads w1 self n1 texts
    = client_results json_loads w2 self n2 texts.
Proof.
  intros H1 H2.
  induction texts as [|text_chunk rest IH]; intros n1 n2; [reflexivity|].
  cbn [client_results]. f_equal; [|apply IH].
  apply extract_transactions_from_text_same. now rewrite H1, H2.
Qed.

Lemma returns_sequence_functional (rs : list (result json))
    (seqs1 seqs2 : list (list json)) :
  Forall2 returns_sequence rs seqs1 ->
  Forall2 returns_sequence rs seqs2 ->
  seqs1 = seqs2.
Proof.
  intros H1. revert seqs2.
  induction H1 as [|r s1 rs seqs1 [v1 [Hr1 Hi1]] _ IH]; intros seqs2 H2.
  - now inversion H2.
  - inversion H2 as [|r' s2 rs' seqs2' [v2 [Hr2 Hi2]] Hrest]; subst.
    injection Hr2 as <-. rewrite Hi1 in Hi2. injection Hi2 as <-.
    f_equal. now apply IH.
Qed.

(** C9. Two successful runs of [process_pdf] with the same processor and
    paths, on the same document and with the same deterministic
    model-response function, write the same text to the output file,
    whatever else differs between the two runs. *)
Theorem process_pdf_deterministic (w1 w2 : World)
    (f : string -> list (string * string) -> json -> result response)
    (self : TransactionProcessor) (pdf_path output_path : string)
    (n1 n2 : nat) (t1 t2 : trace) (m1 m2 : nat) :
  pdf_open w1 pdf_path = pdf_open w2 pdf_path ->
  model_is w1 f ->
  model_is w2 f ->
  process_pdf json_loads json_dumps w1 self pdf_path output_path n1
  = (Ok true, t1, m1) ->
  process_pdf json_loads json_dumps w2 self pdf_path output_path n2
  = (Ok true, t2, m2) ->
  exists content,
    written output_path t1 = [content]
    /\ written output_path t2 = [content].
Proof.
  intros Hpdf Hf1 Hf2 Hrun1 Hrun2.
  destruct (process_pdf_success _ _ _ _ _ Hrun1)
    as [texts1 [te1 [all1 [tl1 [Hextract1 [Hloop1 Hwritten1]]]]]].
  destruct (process_pdf_success _ _ _ _ _ Hrun2)
    as [texts2 [te2 [all2 [tl2 [Hextract2 [Hloop2 Hwritten2]]]]]].
  assert (Htexts : texts1 = texts2).
  { pose proof (extract_text_from_pdf_same w1 w2 self pdf_path n1 n2 Hpdf) as H.
    rewrite Hextract1, Hextract2 in H. now injection H. }
  subst texts2.
  destruct (for_each_text_collects _ _ _ _ _ _ _ Hloop1) as [seqs1 [Hseqs1 Hall1]].
  destruct (for_each_text_collects _ _ _ _ _ _ _ Hloop2) as [seqs2 [Hseqs2 Hall2]].
  rewrite (client_results_same self texts1 Hf1 Hf2 n1 n2) in Hseqs1.
  rewrite (returns_sequence_functional Hseqs1 Hseqs2) in Hall1.
  exists (json_dumps (JArr all1)). split; [exact Hwritten1|].
  rewrite Hwritten2. now rewrite Hall1, Hall2.
Qed.

End Library.

(** * The theorems at work *)

Import Example.

Lemma extract_text_from_pdf_nonempty_pages_witness :
  exists t,
    extract_text_from_pdf scenario processor "statement.pdf" 0
    = (Ok (texts_of statement_raws), t, 0)
    /\ map Some (texts_of statement_raws) = filter has_text statement_raws
    /\ length (texts_of statement_raws) <= length statement_raws
    /\ length (texts_of statement_raws) = length (filter has_text statement_raws).
Proof.
  apply (@extract_text_from_pdf_nonempty_pages scenario processor
           "statement.pdf" {| pages := Ok (map page_of statement_raws) |}
           statement_raws 0); reflexivity.
Defined.

Lemma extract_text_from_pdf_fails_soft_witness :
  exists e t,
    extract_text_from_pdf (world broken_pdf no_env (in_turn [])) processor
      "statement.pdf" 0
    = (Ok [], t ++ [EvPrint (PrintErrorReadingPdf e)], 0)
    /\ forallb (is_pdf_read "statement.pdf") t = true.
Proof.
  apply (@extract_text_from_pdf_fails_soft (world broken_pdf no_env (in_turn []))
           processor "statement.pdf" 0).
  reflexivity.
Defined.

Lemma extract_transactions_from_text_failure_is_empty_witness :
  exists line,
    extract_transactions_from_text loads (answering "Sorry, no table here.")
      processor first_text 0
    = (Ok (JArr []), [post_of processor first_text; EvPrint line], 1)
    /\ forall total rest i all_transactions,
         for_each_text loads (answering "Sorry, no table here.") processor
           total (first_text :: rest) i all_transactions 0
         = match for_each_text loads (answering "Sorry, no table here.")
                   processor total rest (S i) all_transactions 1 with
           | (r, t, n') =>
               (r,
                [ EvPrint (PrintProcessingPage i total);
                  post_of processor first_text;
                  EvPrint line;
                  EvSleep (rate_limit_delay processor) ] ++ t,
                n')
           end.
Proof.
  apply (@extract_transactions_from_text_failure_is_empty loads
           (answering "Sorry, no table here.") processor first_text 0).
  right. right.
  exists {| status_code := 200;
            text := dumps (completion "Sorry, no table here.");
            body_json := Ok (completion "Sorry, no table here.") |},
         (completion "Sorry, no table here."),
         "Sorry, no table here.",
         (LibraryError "Expecting value").
  repeat split; reflexivity.
Defined.

Lemma process_pdf_writes_concatenation_witness :
  written "transactions.json" (events_of scenario_run)
  = [dumps (JArr (concat [[coffee]; []]))]
  /\ length (concat [[coffee]; []])
     = list_sum (map (@length json) [[coffee]; []]).
Proof.
  destruct (@process_pdf_writes_concatenation loads dumps scenario processor
              "statement.pdf" "transactions.json" 0 (events_of scenario_run) 2
              eq_refl)
    as [pages_text [values [Hpages [Hvalues [_ [_ Hlists]]]]]].
  apply Hlists.
  injection Hpages as <-.
  cbn [client_results] in Hvalues.
  destruct values as [|v1 [|v2 [|v3 values]]]; try discriminate Hvalues.
  cbn [map] in Hvalues.
  injection Hvalues as H1 H2.
  vm_compute in H1. vm_compute in H2.
  rewrite <- H1, <- H2. reflexivity.
Defined.

Lemma process_pdf_elements_as_returned_witness :
  exists pages_text all,
    value_of (extract_text_from_pdf scenario processor "statement.pdf" 0)
    = Ok pages_text
    /\ written "transactions.json" (events_of scenario_run)
       = [dumps (JArr all)]
    /\ (forall x, In x all ->
        exists v items,
          In (Ok v) (client_results loads scenario processor 0 pages_text)
          /\ py_iter v = Ok items /\ In x items)
    /\ ((forall v,
           In (Ok v) (client_results loads scenario processor 0 pages_text) ->
           exists items,
             v = JArr items /\ forallb is_transaction_record items = true) ->
        forallb is_transaction_record all = true).
Proof.
  apply (@process_pdf_elements_as_returned loads dumps scenario processor
           "statement.pdf" "transactions.json" 0 (events_of scenario_run) 2).
  reflexivity.
Defined.

Lemma process_pdf_aborts_without_output_witness :
  value_of (process_pdf loads dumps (world scanned_pdf no_env (in_turn []))
              processor "statement.pdf" "transactions.json" 0)
  = Ok false
  /\ forallb (fun e => negb (writes_file e))
       (events_of
          (process_pdf loads dumps (world scanned_pdf no_env (in_turn []))
             processor "statement.pdf" "transactions.json" 0))
     = true
  /\ forall key args,
       processor = init key (arg_model args) ->
       "transactions.json" = output args ->
       value_of (run_processor loads dumps (world scanned_pdf no_env (in_turn []))
                   key args "statement.pdf" 0)
       = Ok 1%Z.
Proof.
  apply (@process_pdf_aborts_without_output loads dumps
           (world scanned_pdf no_env (in_turn [])) processor
           "statement.pdf" "transactions.json" 0).
  left. reflexivity.
Defined.

Lemma object_answer_appends_keys_witness :
  extract_transactions_from_text loads (answering coffee_text) processor
    first_text 0
  = (Ok coffee, [post_of processor first_text], 1)
  /\ (forall total rest i all_transactions,
        for_each_text loads (answering coffee_text) processor total
          (first_text :: rest) i all_transactions 0
        = match for_each_text loads (answering coffee_text) processor total
                  rest (S i)
                  (all_transactions
                   ++ [JStr "date"; JStr "details"; JStr "amount"])
                  1 with
          | (r', t, n') =>
              (r',
               [ EvPrint (PrintProcessingPage i total);
                 post_of processor first_text;
                 EvSleep (rate_limit_delay processor) ] ++ t,
               n')
          end)
  /\ (forall pdf_path output_path,
        value_of (extract_text_from_pdf (answering coffee_text) processor
                    pdf_path 0) = Ok [first_text] ->
        [ ("date", JStr "01-01-2024"); ("details", JStr "Coffee");
          ("amount", JFloat minus_3_5) ] <> [] ->
        file_open_w (answering coffee_text) output_path = Ok tt ->
        written output_path
          (events_of
             (process_pdf loads dumps (answering coffee_text) processor
                pdf_path output_path 0))
        = [dumps (JArr [JStr "date"; JStr "details"; JStr "amount"])]).
Proof.
  apply (@object_answer_appends_keys loads dumps (answering coffee_text)
           processor first_text 0
           {| status_code := 200;
              text := dumps (completion coffee_text);
              body_json := Ok (completion coffee_text) |}
           (completion coffee_text) coffee_text
           [ ("date", JStr "01-01-2024"); ("details", JStr "Coffee");
             ("amount", JFloat minus_3_5) ]);
    reflexivity.
Defined.

Lemma main_without_key_exits_1_witness :
  main loads dumps path_str scenario args 0
  = (Ok 1%Z,
     EvPathExists (path_str (pdf_file args))
     :: (if path_exists scenario (path_str (pdf_file args))
         then [EvGetenv "GROQ_API_KEY"; EvPrint PrintApiKeyRequired]
         else [EvPrint (PrintPdfNotFound (path_str (pdf_file args)))]),
     0)
  /\ forallb (fun e => negb (reads_pdf e) && negb (is_http_post e))
       (events_of (main loads dumps path_str scenario args 0)) = true.
Proof.
  apply (@main_without_key_exits_1 loads dumps path_str scenario args 0);
    reflexivity.
Defined.

Lemma process_pdf_deterministic_witness :
  exists content,
    written "transactions.json"
      (events_of
         (process_pdf loads dumps
            (world statement_pdf no_env (fun _ => coffee_model))
            processor "statement.pdf" "transactions.json" 0))
    = [content]
    /\ written "transactions.json"
         (events_of
            (process_pdf loads dumps
               (world statement_pdf key_in_env (fun _ => coffee_model))
               processor "statement.pdf" "transactions.json" 5))
       = [content].
Proof.
  apply (@process_pdf_deterministic loads dumps
           (world statement_pdf no_env (fun _ => coffee_model))
           (world statement_pdf key_in_env (fun _ => coffee_model))
           coffee_model processor "statement.pdf" "transactions.json" 0 5
           _ _ 2 7);
    try reflexivity; intros n url headers data; reflexivity.
Defined.

(** C1 as stated fails: without any key, [main] has checked that the PDF
    exists by the time it returns 1. *)
Lemma main_without_key_checks_pdf_first :
  arg_api_key args = None
  /\ getenv scenario "GROQ_API_KEY" = None
  /\ main loads dumps path_str scenario args 0
     = (Ok 1%Z,
        [ EvPathExists "statement.pdf";
          EvGetenv "GROQ_API_KEY";
          EvPrint PrintApiKeyRequired ],
        0)
  /\ existsb touches_pdf
       (events_of (main loads dumps path_str scenario args 0)) = true.
Proof.
  repeat split.
Qed.

(** C2 as stated fails: the model answers [[1]], the run succeeds, and the
    written array holds the number 1, which is no mapping. *)
Lemma process_pdf_writes_non_record :
  process_pdf loads dumps (answering "[1]") processor "statement.pdf"
    "transactions.json" 0
  = (Ok true,
     events_of
       (process_pdf loads dumps (answering "[1]") processor "statement.pdf"
          "transactions.json" 0),
     1)
  /\ written "transactions.json"
       (events_of
          (process_pdf loads dumps (answering "[1]") processor "statement.pdf"
             "transactions.json" 0))
     = [dumps (JArr [JInt 1])]
  /\ forallb is_transaction_record [JInt 1] = false.
Proof.
  repeat split.
Qed.

(** C7 at its failing input: one page, and the model answers [42].  The
    Client returns the number, [list.extend] raises [TypeError] outside any
    [try], and [process_pdf] is left before the delay: one page, one
    request, no delay. *)
Theorem process_pdf_scalar_answer_skips_delay :
  value_of (extract_text_from_pdf (answering "42") processor "statement.pdf" 0)
  = Ok [first_text]
  /\ value_of (extract_transactions_from_text loads (answering "42") processor
                 first_text 0)
     = Ok (JInt 42)
  /\ value_of (process_pdf loads dumps (answering "42") processor
                 "statement.pdf" "transactions.json" 0)
     = Raise TypeError
  /\ filter is_request_or_delay
       (events_of (process_pdf loads dumps (answering "42") processor
                     "statement.pdf" "transactions.json" 0))
     = [post_of processor first_text].
Proof.
  repeat split.
Qed.

(** * More of the pipeline *)

Section Orchestration.

Variable json_loads : string -> result json.
Variable json_dumps : json -> string.
Variable path_str : string -> string.
Variable w : World.

(** The calls of the loop, one by one. *)
Lemma for_each_text_calls (self : TransactionProcessor) (total : nat)
    (texts : list string) :
  forall i acc n r t n',
    for_each_text json_loads w self total texts i acc n = (r, t, n') ->
    Forall
      (fun e =>
         is_print e = true
         \/ (exists text_chunk, In text_chunk texts /\ e = post_of self text_chunk)
         \/ e = EvSleep (rate_limit_delay self))
      t.
Proof.
  induction texts as [|text_chunk rest IH]; intros i acc n r t n' Hrun.
  - simpl in Hrun. unfold ret in Hrun. injection Hrun as _ <- _. constructor.
  - destruct (for_each_text_cons json_loads w self total text_chunk rest i acc n)
      as [v [tc [_ [Hprint Hloop]]]].
    rewrite Hloop in Hrun. clear Hloop.
    assert (Htc : Forall
              (fun e =>
                 is_print e = true
                 \/ (exists x, In x (text_chunk :: rest) /\ e = post_of self x)
                 \/ e = EvSleep (rate_limit_delay self)) tc).
    { apply Forall_forall. intros e He. left.
      rewrite forallb_forall in Hprint. auto. }
    assert (Hpost : exists x, In x (text_chunk :: rest)
                              /\ post_of self text_chunk = post_of self x).
    { exists text_chunk. simpl. auto. }
    destruct (list_extend acc v) as [acc'|e].
    + destruct (for_each_text json_loads w self total rest (S i) acc' (S n))
        as [[r' t'] n''] eqn:Hrest.
      injection Hrun as _ <- _.
      constructor; [now left|]. constructor; [right; left; exact Hpost|].
      apply Forall_app. split; [exact Htc|].
      constructor; [now right; right|].
      eapply Forall_impl; [|exact (IH _ _ _ _ _ _ Hrest)].
      intros e [He | [[x [Hx He]] | He]]; auto.
      right. left. exists x. simpl. auto.
    + injection Hrun as _ <- _.
      constructor; [now left|]. constructor; [right; left; exact Hpost|].
      exact Htc.
Qed.

Lemma py_iter_not_iterable (v : json) :
  not_iterable v = true <-> py_iter v = Raise TypeError.
Proof.
  destruct v; simpl; split; intros H; try reflexivity; discriminate.
Qed.

(** The loop raises exactly when the Client returns, for some page, a
    value that cannot be iterated over; what it raises is [TypeError]. *)
Lemma for_each_text_raises_iff (self : TransactionProcessor) (total : nat)
    (texts : list string) :
  forall i acc n,
    (forall e,
       value_of (for_each_text json_loads w self total texts i acc n) = Raise e ->
       e = TypeError)
    /\ ((exists e,
           value_of (for_each_text json_loads w self total texts i acc n)
           = Raise e)
        <-> exists v,
              In (Ok v) (client_results json_loads w self n texts)
              /\ not_iterable v = true).
Proof.
  induction texts as [|text_chunk rest IH]; intros i acc n.
  - simpl. split; [discriminate|].
    split; [intros [e He]; discriminate | intros [v [[] _]]].
  - destruct (for_each_text_cons json_loads w self total text_chunk rest i acc n)
      as [v [tc [Hcall [_ Hloop]]]].
    rewrite Hloop. clear Hloop. cbn [client_results]. rewrite Hcall.
    unfold list_extend.
    destruct (py_iter v) as [items|e0] eqn:Hiter.
    + destruct (IH (S i) (acc ++ items) (S n)) as [Htype Hiff].
      destruct (for_each_text json_loads w self total rest (S i) (acc ++ items) (S n))
        as [[r' t'] n''].
      unfold value_of in *. simpl in *. split; [exact Htype|].
      rewrite Hiff. split.
      * intros [x [Hin Hx]]. exists x. auto.
      * intros [x [[Hx | Hin] Hnot]]; [|exists x; auto].
        injection Hx as ->. apply py_iter_not_iterable in Hnot. congruence.
    + assert (Hnot : not_iterable v = true).
      { destruct v; simpl in *; try reflexivity; discriminate. }
      assert (e0 = TypeError) as ->.
      { apply py_iter_not_iterable in Hnot. congruence. }
      unfold value_of. simpl. split.
      * now intros e [= <-].
      * split; [intros _; exists v; auto | intros _; eexists; reflexivity].
Qed.

Lemma Forall_of_forallb {A : Type} (f : A -> bool) (P : A -> Prop) (l : list A) :
  (forall x, f x = true -> P x) -> forallb f l = true -> Forall P l.
Proof.
  intros HfP H. apply Forall_forall. rewrite forallb_forall in H. auto.
Qed.

(** [process_pdf] makes no call but these: prints, reads of the PDF it is
    given, requests built from one of the page texts the Extractor
    returned, with the processor's own URL, key and model, delays of the
    processor's [rate_limit_delay], and file calls on the output path.  It
    never looks at the environment, never tests a path, and never touches
    another file. *)
Theorem process_pdf_only_calls (self : TransactionProcessor)
    (pdf_path output_path : string) (n : nat) :
  exists pages_text,
    value_of (extract_text_from_pdf w self pdf_path n) = Ok pages_text
    /\ Forall
         (fun e =>
            is_print e = true
            \/ is_pdf_read pdf_path e = true
            \/ (exists text_chunk,
                  In text_chunk pages_text /\ e = post_of self text_chunk)
            \/ e = EvSleep (rate_limit_delay self)
            \/ is_file_call_on output_path e = true)
         (events_of
            (process_pdf json_loads json_dumps w self pdf_path output_path n)).
Proof.
  destruct (process_pdf_steps json_loads json_dumps w self pdf_path output_path n)
    as [pages_text [te [Hextract [Hte Hsteps]]]].
  exists pages_text. split; [now rewrite Hextract|].
  rewrite Hsteps. clear Hsteps Hextract.
  pose (texts := pages_text).
  assert (Htexts : forall x, In x pages_text -> In x texts)
    by (intros x Hx; exact Hx).
  set (P := fun e =>
              is_print e = true
              \/ is_pdf_read pdf_path e = true
              \/ (exists text_chunk,
                    In text_chunk texts /\ e = post_of self text_chunk)
              \/ e = EvSleep (rate_limit_delay self)
              \/ is_file_call_on output_path e = true).
  match goal with
  | |- Forall _ ?evs => change (Forall P evs)
  end.
  clearbody texts.
  assert (Hprint : forall l, P (EvPrint l)) by (intros l; now left).
  assert (Hfile : forall e, is_file_call_on output_path e = true -> P e)
    by (intros e He; right; right; right; now right).
  assert (HPte : Forall P te).
  { revert Hte. apply Forall_of_forallb. intros e He.
    apply orb_true_iff in He as [He|He]; [right; left | left]; exact He. }
  destruct pages_text as [|p ps].
  - unfold events_of. simpl. constructor; [apply Hprint|].
    apply Forall_app. split; [exact HPte|]. constructor; [apply Hprint|constructor].
  - destruct (for_each_text json_loads w self (length (p :: ps)) (p :: ps) 1 [] n)
      as [[r tl] n1] eqn:Hloop.
    assert (HPtl : Forall P tl).
    { eapply Forall_impl; [|exact (for_each_text_calls _ _ _ _ _ _ Hloop)].
      intros e [He | [[x [Hx He]] | He]].
      - now left.
      - right. right. left. exists x. split; [apply Htexts; exact Hx | exact He].
      - right. right. right. now left. }
    destruct r as [[|x l]|e]; unfold events_of; simpl.
    + constructor; [apply Hprint|]. apply Forall_app. split; [exact HPte|].
      constructor; [apply Hprint|]. apply Forall_app. split; [exact HPtl|].
      constructor; [apply Hprint|constructor].
    + unfold save_step. run_monad.
      destruct (file_open_w w output_path) as [[]|e]; simpl;
        [destruct (file_write w output_path _) as [[]|e]; simpl|];
        (constructor; [apply Hprint|]; apply Forall_app; split; [exact HPte|];
         constructor; [apply Hprint|]; apply Forall_app; split; [exact HPtl|];
         repeat (constructor;
                 try apply Hprint;
                 try (apply Hfile; simpl; now rewrite String.eqb_refl))).
    + constructor; [apply Hprint|]. apply Forall_app. split; [exact HPte|].
      constructor; [apply Hprint|]. exact HPtl.
Qed.

(** What the [try] block that saves does, by what the file system
    answers. *)
Lemma save_step_cases (output_path : string) (all_transactions : list json)
    (n : nat) :
  save_step json_dumps w output_path all_transactions n
  = match file_open_w w output_path with
    | Raise e =>
        (Ok false,
         [EvFileOpenW output_path; EvPrint (PrintErrorSaving e)], n)
    | Ok _ =>
        match file_write w output_path (json_dumps (JArr all_transactions)) with
        | Raise e =>
            (Ok false,
             [ EvFileOpenW output_path;
               EvFileWrite output_path (json_dumps (JArr all_transactions));
               EvFileClose output_path;
               EvPrint (PrintErrorSaving e) ], n)
        | Ok _ =>
            (Ok true,
             [ EvFileOpenW output_path;
               EvFileWrite output_path (json_dumps (JArr all_transactions));
               EvFileClose output_path;
               EvPrint (PrintSaved (length all_transactions) output_path) ], n)
        end
    end.
Proof.
  unfold save_step. run_monad.
  destruct (file_open_w w output_path) as [[]|e]; simpl; [|reflexivity].
  destruct (file_write w output_path _) as [[]|e]; reflexivity.
Qed.

(** The events of a run before it saves: no file call among them. *)
Lemma process_pdf_head_no_file (pdf_path : string) (te tl : trace)
    (k : nat) :
  forallb (fun e => is_pdf_read pdf_path e || is_print e) te = true ->
  forallb (fun e => is_print e || is_request_or_delay e) tl = true ->
  forallb (fun e => negb (writes_file e))
    (EvPrint (PrintProcessingPdf pdf_path)
     :: te ++ EvPrint (PrintExtractedPages k) :: tl) = true.
Proof.
  intros Hte Htl. simpl. rewrite forallb_app. simpl.
  apply andb_true_iff. split.
  - revert Hte. apply forallb_impl. intros [] H; auto; discriminate.
  - revert Htl. apply forallb_impl. intros [] H; auto; discriminate.
Qed.

(** A run in two parts: what comes before saving, with no file call, and
    the saving, with file calls on the output path and prints only; when
    the second part has a file call, the first has the request and the
    delay of every page. *)
Lemma process_pdf_two_parts (self : TransactionProcessor)
    (pdf_path output_path : string) (n : nat) :
  exists pages_text before after,
    value_of (extract_text_from_pdf w self pdf_path n) = Ok pages_text
    /\ events_of
         (process_pdf json_loads json_dumps w self pdf_path output_path n)
       = before ++ after
    /\ forallb (fun e => negb (writes_file e)) before = true
    /\ forallb (fun e => is_file_call_on output_path e || is_print e) after
       = true
    /\ (existsb writes_file after = true ->
        filter is_request_or_delay before
        = requests_and_delays self pages_text).
Proof.
  destruct (process_pdf_steps json_loads json_dumps w self pdf_path output_path n)
    as [pages_text [te [Hextract [Hte Hsteps]]]].
  exists pages_text. rewrite Hextract, Hsteps. clear Hsteps Hextract.
  assert (Hte' : forallb (fun e => negb (writes_file e)) te = true).
  { revert Hte. apply forallb_impl. intros [] H; auto; discriminate. }
  assert (Hte'' : filter is_request_or_delay te = []).
  { apply filter_none. revert Hte. apply forallb_impl.
    intros [] H; auto; discriminate. }
  destruct pages_text as [|p ps].
  - eexists _, []. rewrite app_nil_r.
    split; [reflexivity|]. split; [reflexivity|].
    split; [|split; [reflexivity|discriminate]].
    unfold events_of. simpl. rewrite forallb_app, Hte'. reflexivity.
  - destruct (for_each_text json_loads w self (length (p :: ps)) (p :: ps) 1 [] n)
      as [[r tl] n1] eqn:Hloop.
    destruct (for_each_text_events _ _ _ _ _ _ _ _ Hloop) as [Htl Hall].
    pose proof (process_pdf_head_no_file pdf_path te tl (length (p :: ps)) Hte Htl)
      as Hhead.
    destruct r as [[|x l]|e].
    + exists (EvPrint (PrintProcessingPdf pdf_path)
              :: te ++ EvPrint (PrintExtractedPages (length (p :: ps))) :: tl),
             [EvPrint PrintNoTransactions].
      split; [reflexivity|].
      split; [unfold events_of; simpl; now rewrite <- app_assoc|].
      split; [exact Hhead|]. split; [reflexivity|discriminate].
    + rewrite save_step_cases.
      exists (EvPrint (PrintProcessingPdf pdf_path)
              :: te ++ EvPrint (PrintExtractedPages (length (p :: ps))) :: tl).
      assert (Hfilter : filter is_request_or_delay
                          (EvPrint (PrintProcessingPdf pdf_path)
                           :: te ++ EvPrint (PrintExtractedPages (length (p :: ps)))
                           :: tl)
                        = requests_and_delays self (p :: ps)).
      { cbn [filter is_request_or_delay is_http_post is_sleep orb].
        rewrite filter_app, Hte''.
        cbn [app filter is_request_or_delay is_http_post is_sleep orb].
        exact (Hall (x :: l) eq_refl). }
      destruct (file_open_w w output_path) as [[]|e];
        [destruct (file_write w output_path _) as [[]|e]|];
        eexists; (split; [reflexivity|]);
        (split; [unfold events_of; simpl; rewrite <- app_assoc; simpl; reflexivity|]);
        (split; [exact Hhead|]);
        (split; [simpl; now rewrite String.eqb_refl | intros _; exact Hfilter]).
    + eexists _, []. rewrite app_nil_r.
      split; [reflexivity|]. split; [reflexivity|].
      split; [exact Hhead|]. split; [reflexivity|discriminate].
Qed.

(** Where a call that is not in the first part falls in a trace cut in
    two. *)
Lemma split_at_later_call (f : event -> bool) (before after t1 t2 : trace)
    (e : event) :
  before ++ after = t1 ++ e :: t2 ->
  forallb (fun x => negb (f x)) before = true ->
  f e = true ->
  exists middle, t1 = before ++ middle /\ after = middle ++ e :: t2.
Proof.
  revert t1. induction before as [|b before IH]; intros t1 Heq Hbefore He.
  - exists t1. auto.
  - simpl in Hbefore. apply andb_true_iff in Hbefore as [Hb Hrest].
    destruct t1 as [|x t1]; simpl in Heq; injection Heq as Hx Heq.
    + subst b. rewrite He in Hb. discriminate.
    + subst x. destruct (IH t1 Heq Hrest He) as [middle [-> ->]].
      exists middle. auto.
Qed.

(** The output file is touched only once every extracted page has been
    asked for and every delay made: whenever a run makes a file call, the
    calls before it hold the request and the delay of each page, in page
    order; the call is on the output path; and only file calls on the
    output path and prints follow it. *)
Theorem process_pdf_saves_last (self : TransactionProcessor)
    (pdf_path output_path : string) (n : nat) (pages_text : list string)
    (t1 t2 : trace) (e : event) :
  value_of (extract_text_from_pdf w self pdf_path n) = Ok pages_text ->
  events_of (process_pdf json_loads json_dumps w self pdf_path output_path n)
  = t1 ++ e :: t2 ->
  writes_file e = true ->
  filter is_request_or_delay t1 = requests_and_delays self pages_text
  /\ is_file_call_on output_path e = true
  /\ forallb (fun x => is_file_call_on output_path x || is_print x) t2 = true.
Proof.
  intros Hpages Hevents He.
  destruct (process_pdf_two_parts self pdf_path output_path n)
    as [pages_text' [before [after [Hpages' [Hsplit [Hbefore [Hafter Hdone]]]]]]].
  rewrite Hpages in Hpages'. injection Hpages' as <-.
  rewrite Hsplit in Hevents.
  destruct (@split_at_later_call writes_file before after t1 t2 e
              Hevents Hbefore He)
    as [middle [-> ->]].
  rewrite forallb_app in Hafter. apply andb_true_iff in Hafter as [Hmiddle Htail].
  simpl in Htail. apply andb_true_iff in Htail as [Hcall Hrest].
  assert (Hfile : is_file_call_on output_path e = true).
  { destruct e; try discriminate; simpl in *; now rewrite orb_false_r in Hcall. }
  split; [|split; [exact Hfile | exact Hrest]].
  rewrite filter_app, Hdone.
  - rewrite (@filter_none _ is_request_or_delay middle); [apply app_nil_r|].
    revert Hmiddle. apply forallb_impl. intros [] H; auto; discriminate.
  - rewrite existsb_app. simpl. rewrite He. now rewrite orb_true_r.
Qed.

(** [process_pdf] raises exactly when the Client returns, for some page, a
    value that is not iterable ([None], a [bool] or a number); it then
    raises [TypeError] and has made no file call. *)
Theorem process_pdf_raises_iff (self : TransactionProcessor)
    (pdf_path output_path : string) (n : nat) (pages_text : list string) :
  value_of (extract_text_from_pdf w self pdf_path n) = Ok pages_text ->
  ((exists e,
      value_of (process_pdf json_loads json_dumps w self pdf_path output_path n)
      = Raise e)
   <-> exists v,
         In (Ok v) (client_results json_loads w self n pages_text)
         /\ not_iterable v = true)
  /\ forall e,
       value_of (process_pdf json_loads json_dumps w self pdf_path output_path n)
       = Raise e ->
       e = TypeError
       /\ forallb (fun e => negb (writes_file e))
            (events_of
               (process_pdf json_loads json_dumps w self pdf_path output_path n))
          = true.
Proof.
  intros Hpages.
  destruct (process_pdf_steps json_loads json_dumps w self pdf_path output_path n)
    as [pages_text' [te [Hextract [Hte Hsteps]]]].
  rewrite Hextract in Hpages. injection Hpages as ->.
  rewrite Hsteps. clear Hsteps.
  destruct pages_text as [|p ps].
  - unfold value_of. simpl. split; [|discriminate].
    split; [intros [e He]; discriminate | intros [v [[] _]]].
  - destruct (for_each_text_raises_iff self (length (p :: ps)) (p :: ps) 1 [] n)
      as [Htype Hiff].
    destruct (for_each_text json_loads w self (length (p :: ps)) (p :: ps) 1 [] n)
      as [[r tl] n1] eqn:Hloop.
    destruct (for_each_text_events _ _ _ _ _ _ _ _ Hloop) as [Htl _].
    pose proof (process_pdf_head_no_file pdf_path te tl (length (p :: ps)) Hte Htl)
      as Hhead.
    rewrite <- Hiff. clear Hiff. unfold value_of in *. simpl in Htype |- *.
    destruct r as [[|x l]|e].
    + simpl. split; [|discriminate].
      split; intros [e He]; discriminate.
    + rewrite save_step_cases.
      destruct (file_open_w w output_path) as [[]|e];
        [destruct (file_write w output_path _) as [[]|e]|];
        simpl; (split; [|discriminate]);
        split; intros [e' He]; discriminate.
    + simpl. split.
      * split; intros _; eexists; reflexivity.
      * intros e' [= <-]. split; [now apply Htype|]. exact Hhead.
Qed.

(** When the collection is not empty but the output file cannot be opened
    or written, [process_pdf] returns [False] after one diagnostic; when it
    is the write that fails, the file has been opened for writing and
    closed by then. *)
Theorem process_pdf_save_failure (self : TransactionProcessor)
    (pdf_path output_path : string) (n : nat) (pages_text : list string)
    (all : list json) (tl : trace) (n' : nat) (e : exn) :
  value_of (extract_text_from_pdf w self pdf_path n) = Ok pages_text ->
  for_each_text json_loads w self (length pages_text) pages_text 1 [] n
  = (Ok all, tl, n') ->
  all <> [] ->
  file_open_w w output_path = Raise e
  \/ (file_open_w w output_path = Ok tt
      /\ file_write w output_path (json_dumps (JArr all)) = Raise e) ->
  exists before,
    process_pdf json_loads json_dumps w self pdf_path output_path n
    = (Ok false,
       before
       ++ match file_open_w w output_path with
          | Raise _ =>
              [EvFileOpenW output_path; EvPrint (PrintErrorSaving e)]
          | Ok _ =>
              [ EvFileOpenW output_path;
                EvFileWrite output_path (json_dumps (JArr all));
                EvFileClose output_path;
                EvPrint (PrintErrorSaving e) ]
          end,
       n')
    /\ forallb (fun e => negb (writes_file e)) before = true.
Proof.
  intros Hpages Hloop Hall Hfail.
  destruct (process_pdf_steps json_loads json_dumps w self pdf_path output_path n)
    as [pages_text' [te [Hextract [Hte Hsteps]]]].
  rewrite Hextract in Hpages. injection Hpages as ->.
  rewrite Hsteps. clear Hsteps.
  destruct pages_text as [|p ps].
  - simpl in Hloop. unfold ret in Hloop. injection Hloop as <- _ _. congruence.
  - rewrite Hloop. destruct all as [|x l]; [congruence|].
    destruct (for_each_text_events _ _ _ _ _ _ _ _ Hloop) as [Htl _].
    pose proof (process_pdf_head_no_file pdf_path te tl (length (p :: ps)) Hte Htl)
      as Hhead.
    rewrite save_step_cases.
    exists ((EvPrint (PrintProcessingPdf pdf_path)
             :: te ++ EvPrint (PrintExtractedPages (length (p :: ps))) :: tl)
            ++ [EvPrint (PrintExtracted (length (x :: l)))]).
    split.
    + destruct Hfail as [Hopen | [Hopen Hwrite]].
      * rewrite Hopen. simpl. now rewrite <- !app_assoc.
      * rewrite Hopen, Hwrite. simpl. now rewrite <- !app_assoc.
    + rewrite forallb_app, Hhead. reflexivity.
Qed.

(** *** The command line *)

(** [main] once the PDF is there and the key is known. *)
Lemma run_processor_run (key : string) (args : Args) (pdf_path : string)
    (n : nat) :
  run_processor json_loads json_dumps w key args pdf_path n
  = match process_pdf json_loads json_dumps w (init key (arg_model args))
            pdf_path (output args) n with
    | (Ok b, t, n') => (Ok (if b then 0%Z else 1%Z), t, n')
    | (Raise e, t, n') => (Raise e, t, n')
    end.
Proof.
  unfold run_processor, bind, ret.
  destruct (process_pdf json_loads json_dumps w (init key (arg_model args))
              pdf_path (output args) n) as [[[b|e] t] n'];
    [rewrite app_nil_r|]; reflexivity.
Qed.

Lemma process_pdf_no_getenv (self : TransactionProcessor)
    (pdf_path output_path : string) (n : nat) :
  forallb (fun e => negb (is_getenv e))
    (events_of (process_pdf json_loads json_dumps w self pdf_path output_path n))
  = true.
Proof.
  destruct (process_pdf_steps json_loads json_dumps w self pdf_path output_path n)
    as [pages_text [te [_ [Hte Hsteps]]]].
  rewrite Hsteps. clear Hsteps.
  assert (Hte' : forallb (fun e => negb (is_getenv e)) te = true).
  { revert Hte. apply forallb_impl. intros [] H; auto; discriminate. }
  destruct pages_text as [|p ps].
  - unfold events_of. simpl. rewrite forallb_app, Hte'. reflexivity.
  - destruct (for_each_text json_loads w self (length (p :: ps)) (p :: ps) 1 [] n)
      as [[r tl] n1] eqn:Hloop.
    destruct (for_each_text_events _ _ _ _ _ _ _ _ Hloop) as [Htl _].
    assert (Htl' : forallb (fun e => negb (is_getenv e)) tl = true).
    { revert Htl. apply forallb_impl. intros [] H; auto; discriminate. }
    destruct r as [[|x l]|e]; unfold events_of; simpl.
    + rewrite forallb_app, Hte'. simpl. rewrite forallb_app, Htl'. reflexivity.
    + rewrite save_step_cases.
      destruct (file_open_w w output_path) as [[]|e];
        [destruct (file_write w output_path _) as [[]|e]|];
        simpl; rewrite forallb_app, Hte'; simpl; rewrite forallb_app, Htl';
        reflexivity.
    + rewrite forallb_app, Hte'. simpl. exact Htl'.
Qed.

(** When the PDF path does not exist, [main] returns 1 after the check and
    one diagnostic, whatever the key is: it does not look at the
    environment and starts no processing. *)
Theorem main_missing_pdf (args : Args) (n : nat) :
  path_exists w (path_str (pdf_file args)) = false ->
  main json_loads json_dumps path_str w args n
  = (Ok 1%Z,
     [ EvPathExists (path_str (pdf_file args));
       EvPrint (PrintPdfNotFound (path_str (pdf_file args))) ],
     n).
Proof.
  intros Hmissing. unfold main. run_monad. now rewrite Hmissing.
Qed.

(** A non-empty [--api-key] wins over the environment: [main] runs
    [process_pdf] with a processor built from that key and the [--model],
    on the normalised PDF path and the [--output] path, and [GROQ_API_KEY]
    is never looked up. *)
Theorem main_explicit_key (args : Args) (key : string) (n : nat) :
  path_exists w (path_str (pdf_file args)) = true ->
  arg_api_key args = Some key ->
  key <> "" ->
  main json_loads json_dumps path_str w args n
  = match process_pdf json_loads json_dumps w (init key (arg_model args))
            (path_str (pdf_file args)) (output args) n with
    | (Ok b, t, n') =>
        (Ok (if b then 0%Z else 1%Z),
         EvPathExists (path_str (pdf_file args)) :: t, n')
    | (Raise e, t, n') =>
        (Raise e, EvPathExists (path_str (pdf_file args)) :: t, n')
    end
  /\ forallb (fun e => negb (is_getenv e))
       (events_of (main json_loads json_dumps path_str w args n)) = true.
Proof.
  intros Hexists Hkey Hne.
  assert (Hmain : main json_loads json_dumps path_str w args n
                  = match process_pdf json_loads json_dumps w
                            (init key (arg_model args))
                            (path_str (pdf_file args)) (output args) n with
                    | (Ok b, t, n') =>
                        (Ok (if b then 0%Z else 1%Z),
                         EvPathExists (path_str (pdf_file args)) :: t, n')
                    | (Raise e, t, n') =>
                        (Raise e, EvPathExists (path_str (pdf_file args)) :: t, n')
                    end).
  { unfold main. rewrite Hkey. destruct key as [|c key]; [congruence|].
    cbn [truthy_value str_truthy]. unfold bind at 1. unfold emit.
    rewrite Hexists. cbn [negb]. rewrite run_processor_run.
    destruct (process_pdf json_loads json_dumps w _ _ _ n) as [[[b|e] t] n'];
      reflexivity. }
  split; [exact Hmain|].
  rewrite Hmain.
  pose proof (process_pdf_no_getenv (init key (arg_model args))
                (path_str (pdf_file args)) (output args) n) as Hno.
  destruct (process_pdf json_loads json_dumps w _ _ _ n) as [[[b|e] t] n'];
    exact Hno.
Qed.

(** Without [--api-key], or with an empty one, [main] takes a non-empty
    [GROQ_API_KEY] from the environment and runs [process_pdf] with it. *)
Theorem main_key_from_environment (args : Args) (key : string) (n : nat) :
  path_exists w (path_str (pdf_file args)) = true ->
  arg_api_key args = None \/ arg_api_key args = Some "" ->
  getenv w "GROQ_API_KEY" = Some key ->
  key <> "" ->
  main json_loads json_dumps path_str w args n
  = match process_pdf json_loads json_dumps w (init key (arg_model args))
            (path_str (pdf_file args)) (output args) n with
    | (Ok b, t, n') =>
        (Ok (if b then 0%Z else 1%Z),
         EvPathExists (path_str (pdf_file args))
         :: EvGetenv "GROQ_API_KEY" :: t, n')
    | (Raise e, t, n') =>
        (Raise e,
         EvPathExists (path_str (pdf_file args))
         :: EvGetenv "GROQ_API_KEY" :: t, n')
    end.
Proof.
  intros Hexists Harg Henv Hne.
  assert (Hnone : truthy_value (arg_api_key args) = None)
    by (destruct Harg as [-> | ->]; reflexivity).
  unfold main. rewrite Hnone, Henv.
  destruct key as [|c key]; [congruence|].
  cbn [truthy_value str_truthy]. unfold bind at 1. unfold emit.
  rewrite Hexists. cbn [negb]. unfold bind at 1.
  rewrite run_processor_run.
  destruct (process_pdf json_loads json_dumps w _ _ _ n) as [[[b|e] t] n'];
    reflexivity.
Qed.

(** What a run that returns [True] has done. *)
Lemma process_pdf_true (self : TransactionProcessor)
    (pdf_path output_path : string) (n : nat) (t : trace) (n' : nat) :
  process_pdf json_loads json_dumps w self pdf_path output_path n
  = (Ok true, t, n') ->
  exists all before,
    all <> []
    /\ t = before
           ++ [ EvFileOpenW output_path;
                EvFileWrite output_path (json_dumps (JArr all));
                EvFileClose output_path;
                EvPrint (PrintSaved (length all) output_path) ]
    /\ forallb (fun e => negb (writes_file e)) before = true.
Proof.
  intros Hrun.
  destruct (process_pdf_steps json_loads json_dumps w self pdf_path output_path n)
    as [pages_text [te [_ [Hte Hsteps]]]].
  rewrite Hsteps in Hrun. clear Hsteps.
  destruct pages_text as [|p ps]; [discriminate|].
  destruct (for_each_text json_loads w self (length (p :: ps)) (p :: ps) 1 [] n)
    as [[[all|e] tl] n1] eqn:Hloop; [|discriminate].
  destruct all as [|x l]; [discriminate|].
  destruct (for_each_text_events _ _ _ _ _ _ _ _ Hloop) as [Htl _].
  pose proof (process_pdf_head_no_file pdf_path te tl (length (p :: ps)) Hte Htl)
    as Hhead.
  rewrite save_step_cases in Hrun.
  exists (x :: l),
         ((EvPrint (PrintProcessingPdf pdf_path)
           :: te ++ EvPrint (PrintExtractedPages (length (p :: ps))) :: tl)
          ++ [EvPrint (PrintExtracted (length (x :: l)))]).
  split; [discriminate|].
  split; [|rewrite forallb_app, Hhead; reflexivity].
  destruct (file_open_w w output_path) as [[]|e]; [|discriminate].
  destruct (file_write w output_path _) as [[]|e]; [|discriminate].
  injection Hrun as <- _. simpl. now rewrite <- !app_assoc.
Qed.

(** [main] returns 0 or 1, and 0 only after a successful save: the last
    calls of the run open the [--output] path, write a non-empty array
    to it, close it and report, and no other file call was made. *)
Theorem main_exit_code (args : Args) (n : nat) (c : Z) (t : trace) (n' : nat) :
  main json_loads json_dumps path_str w args n = (Ok c, t, n') ->
  (c = 0%Z \/ c = 1%Z)
  /\ (c = 0%Z ->
      exists all before,
        all <> []
        /\ t = before
               ++ [ EvFileOpenW (output args);
                    EvFileWrite (output args) (json_dumps (JArr all));
                    EvFileClose (output args);
                    EvPrint (PrintSaved (length all) (output args)) ]
        /\ forallb (fun e => negb (writes_file e)) before = true).
Proof.
  assert (Hrun : forall key pre,
             forallb (fun e => negb (writes_file e)) pre = true ->
             match process_pdf json_loads json_dumps w (init key (arg_model args))
                     (path_str (pdf_file args)) (output args) n with
             | (Ok b, t0, n0) => (Ok (if b then 0%Z else 1%Z), pre ++ t0, n0)
             | (Raise e, t0, n0) => (Raise e, pre ++ t0, n0)
             end = (Ok c, t, n') ->
             (c = 0%Z \/ c = 1%Z)
             /\ (c = 0%Z ->
                 exists all before,
                   all <> []
                   /\ t = before
                          ++ [ EvFileOpenW (output args);
                               EvFileWrite (output args) (json_dumps (JArr all));
                               EvFileClose (output args);
                               EvPrint (PrintSaved (length all) (output args)) ]
                   /\ forallb (fun e => negb (writes_file e)) before = true)).
  { intros key pre Hpre H.
    destruct (process_pdf json_loads json_dumps w (init key (arg_model args))
                (path_str (pdf_file args)) (output args) n)
      as [[[b|e] t0] n0] eqn:Hp; [|discriminate].
    injection H as <- <- <-.
    destruct b; [|split; [now right | discriminate]].
    split; [now left|]. intros _.
    destruct (process_pdf_true _ _ _ _ Hp) as [all [before [Hall [-> Hbefore]]]].
    exists all, (pre ++ before). split; [exact Hall|].
    split; [now rewrite app_assoc|].
    now rewrite forallb_app, Hpre, Hbefore. }
  unfold main. unfold bind at 1. unfold emit.
  destruct (path_exists w (path_str (pdf_file args))); cbn [negb].
  - destruct (truthy_value (arg_api_key args)) as [key|].
    + rewrite run_processor_run. intros H.
      apply (Hrun key [EvPathExists (path_str (pdf_file args))]); [reflexivity|].
      destruct (process_pdf json_loads json_dumps w _ _ _ n) as [[[b|e] t0] n0];
        exact H.
    + unfold bind at 1.
      destruct (truthy_value (getenv w "GROQ_API_KEY")) as [key|].
      * rewrite run_processor_run. intros H.
        apply (Hrun key [EvPathExists (path_str (pdf_file args));
                         EvGetenv "GROQ_API_KEY"]); [reflexivity|].
        destruct (process_pdf json_loads json_dumps w _ _ _ n) as [[[b|e] t0] n0];
          exact H.
      * run_monad. intros [= <- _ _]. split; [now right | discriminate].
  - run_monad. intros [= <- _ _]. split; [now right | discriminate].
Qed.

End Orchestration.

Section Components.

Variable json_loads : string -> result json.
Variable w : World.

(** *** The Client, case by case *)

(** On an answer with status 200 whose completion content is JSON text,
    the Client returns what [json.loads] makes of it, as it is, after its
    single request and without printing. *)
Theorem extract_transactions_from_text_success (self : TransactionProcessor)
    (text_chunk : string) (n : nat) (r : response) (body : json)
    (content : string) (v : json) :
  http_post w n (api_url self) (headers_of self)
    (data_of self (prompt_of text_chunk)) = Ok r ->
  status_code r = 200%Z ->
  body_json r = Ok body ->
  completion_content body = Ok (JStr content) ->
  json_loads content = Ok v ->
  extract_transactions_from_text json_loads w self text_chunk n
  = (Ok v, [post_of self text_chunk], S n).
Proof.
  intros Hr Hs Hb Hc Hl.
  unfold extract_transactions_from_text, post_of. run_monad.
  rewrite Hr, Hs. simpl. rewrite Hb, Hc. simpl. now rewrite Hl.
Qed.

(** On an answer with status 200 whose body is not JSON, or has no
    [choices[0].message.content], or whose content is not a string, the
    Client returns the empty list after its single request and one
    diagnostic that names the exception. *)
Theorem extract_transactions_from_text_malformed_body
    (self : TransactionProcessor) (text_chunk : string) (n : nat)
    (r : response) (e : exn) :
  http_post w n (api_url self) (headers_of self)
    (data_of self (prompt_of text_chunk)) = Ok r ->
  status_code r = 200%Z ->
  body_json r = Raise e
  \/ (exists body, body_json r = Ok body /\ completion_content body = Raise e)
  \/ (exists body content,
        body_json r = Ok body /\ completion_content body = Ok content
        /\ (forall s, content <> JStr s) /\ e = TypeError) ->
  extract_transactions_from_text json_loads w self text_chunk n
  = (Ok (JArr []),
     [post_of self text_chunk; EvPrint (PrintErrorExtracting e)], S n).
Proof.
  intros Hr Hs Hbad.
  unfold extract_transactions_from_text, post_of. run_monad.
  rewrite Hr, Hs. simpl.
  destruct Hbad as [Hb | [[body [Hb Hc]] | [body [content [Hb [Hc [Hns ->]]]]]]].
  - now rewrite Hb.
  - rewrite Hb, Hc. reflexivity.
  - rewrite Hb, Hc. simpl.
    destruct content; try reflexivity. now destruct (Hns s).
Qed.

(** Whatever the endpoint does, the Client sends exactly one request,
    raises nothing, and prints at most one line; when it prints, it
    returns the empty list. *)
Theorem extract_transactions_from_text_one_request
    (self : TransactionProcessor) (text_chunk : string) (n : nat) :
  exists v t,
    extract_transactions_from_text json_loads w self text_chunk n
    = (Ok v, post_of self text_chunk :: t, S n)
    /\ (t = [] \/ exists line, t = [EvPrint line] /\ v = JArr []).
Proof.
  unfold extract_transactions_from_text, post_of. run_monad.
  destruct (http_post w n _ _ _) as [r|e].
  - destruct (status_code r =? 200)%Z.
    + destruct (body_json r) as [body|e].
      * destruct (completion_content body) as [content|e].
        -- destruct (py_json_loads json_loads content) as [v|e].
           ++ exists v, []. auto.
           ++ exists (JArr []). eexists. split; [reflexivity|]. right. eauto.
        -- exists (JArr []). eexists. split; [reflexivity|]. right. eauto.
      * exists (JArr []). eexists. split; [reflexivity|]. right. eauto.
    + exists (JArr []). eexists. split; [reflexivity|]. right. eauto.
  - exists (JArr []). eexists. split; [reflexivity|]. right. eauto.
Qed.

(** *** The Extractor, call by call *)

Lemma for_each_page_parsed_calls (pdf_path : string)
    (raws : list (option string)) :
  forall index pages_text n,
    for_each_page pdf_path (map page_of raws) index pages_text n
    = (Ok (pages_text ++ texts_of raws),
       map (EvPdfExtractText pdf_path) (seq index (length raws)),
       n).
Proof.
  induction raws as [|raw rest IH]; intros index pages_text n.
  - simpl. unfold ret. now rewrite app_nil_r.
  - cbn [map for_each_page page_of extract_text length seq]. run_monad.
    rewrite IH.
    destruct raw as [[|c s]|]; simpl; rewrite <- ?app_assoc; reflexivity.
Qed.

Lemma for_each_page_app_raise (pdf_path : string) (raws : list (option string))
    (bad : page) (rest : list page) (e : exn) :
  extract_text bad = Raise e ->
  forall index pages_text n,
    for_each_page pdf_path (map page_of raws ++ bad :: rest) index pages_text n
    = (Raise e,
       map (EvPdfExtractText pdf_path) (seq index (S (length raws))),
       n).
Proof.
  intros Hbad.
  induction raws as [|raw raws IH]; intros index pages_text n.
  - simpl. run_monad. now rewrite Hbad.
  - cbn [map app for_each_page page_of extract_text length]. run_monad.
    rewrite IH. reflexivity.
Qed.

(** A document that opens and parses is read page by page, every page
    once and in order, between listing the pages and closing the
    document; nothing is printed. *)
Theorem extract_text_from_pdf_reads_every_page (self : TransactionProcessor)
    (pdf_path : string) (doc : pdf) (raws : list (option string)) (n : nat) :
  pdf_open w pdf_path = Ok doc ->
  pages doc = Ok (map page_of raws) ->
  extract_text_from_pdf w self pdf_path n
  = (Ok (texts_of raws),
     EvPdfOpen pdf_path :: EvPdfPages pdf_path
     :: map (EvPdfExtractText pdf_path) (seq 0 (length raws))
     ++ [EvPdfClose pdf_path],
     n).
Proof.
  intros Hopen Hpages. unfold extract_text_from_pdf. run_monad.
  rewrite Hopen, Hpages, for_each_page_parsed_calls. reflexivity.
Qed.

(** The first page that fails to extract ends the reading: the pages after
    it are not touched, the texts gathered before it are dropped, the
    document is closed, and the diagnostic carries that page's
    exception. *)
Theorem extract_text_from_pdf_stops_at_first_error
    (self : TransactionProcessor) (pdf_path : string) (doc : pdf)
    (raws : list (option string)) (bad : page) (rest : list page) (e : exn)
    (n : nat) :
  pdf_open w pdf_path = Ok doc ->
  pages doc = Ok (map page_of raws ++ bad :: rest) ->
  extract_text bad = Raise e ->
  extract_text_from_pdf w self pdf_path n
  = (Ok [],
     EvPdfOpen pdf_path :: EvPdfPages pdf_path
     :: map (EvPdfExtractText pdf_path) (seq 0 (S (length raws)))
     ++ [EvPdfClose pdf_path; EvPrint (PrintErrorReadingPdf e)],
     n).
Proof.
  intros Hopen Hpages Hbad. unfold extract_text_from_pdf. run_monad.
  rewrite Hopen, Hpages, (@for_each_page_app_raise pdf_path raws bad rest e Hbad).
  cbn [app]. now rewrite <- app_assoc.
Qed.

Lemma for_each_page_only_extracts (pdf_path : string) (ps : list page) :
  forall index pages_text n r t n',
    for_each_page pdf_path ps index pages_text n = (r, t, n') ->
    forallb
      (fun e =>
         match e with
         | EvPdfPages _ | EvPdfExtractText _ _ => true
         | _ => false
         end) t = true.
Proof.
  induction ps as [|p ps IH]; intros index pages_text n r t n' Hrun.
  - simpl in Hrun. unfold ret in Hrun. now injection Hrun as _ <- _.
  - cbn [for_each_page] in Hrun. revert Hrun. run_monad.
    destruct (extract_text p) as [raw|e].
    + destruct (for_each_page pdf_path ps (S index) _ n)
        as [[r' t'] n''] eqn:Hrest.
      intros [= _ <- _]. simpl. exact (IH _ _ _ _ _ _ Hrest).
    + now intros [= _ <- _].
Qed.

(** A document that opens is closed exactly once, after every other read
    of it, whether its pages parse or not; a document that does not open
    is not closed. *)
Theorem extract_text_from_pdf_closes_what_it_opens
    (self : TransactionProcessor) (pdf_path : string) (n : nat) :
  exists reads tail,
    events_of (extract_text_from_pdf w self pdf_path n)
    = EvPdfOpen pdf_path
      :: match pdf_open w pdf_path with
         | Ok _ => reads ++ EvPdfClose pdf_path :: tail
         | Raise e => [EvPrint (PrintErrorReadingPdf e)]
         end
    /\ forallb
         (fun e =>
            match e with
            | EvPdfPages _ | EvPdfExtractText _ _ => true
            | _ => false
            end) reads = true
    /\ forallb is_print tail = true.
Proof.
  unfold extract_text_from_pdf. run_monad.
  destruct (pdf_open w pdf_path) as [doc|e].
  - destruct (pages doc) as [ps|e].
    + destruct (for_each_page_events pdf_path ps 0 [] n) as [r [t [Hrun Hread]]].
      rewrite Hrun.
      pose proof (for_each_page_only_extracts _ _ _ _ _ Hrun) as Ht.
      destruct r as [l|e]; unfold events_of; simpl.
      * exists (EvPdfPages pdf_path :: t), []. simpl. now rewrite Ht.
      * exists (EvPdfPages pdf_path :: t), [EvPrint (PrintErrorReadingPdf e)].
        simpl. rewrite Ht. repeat split. now rewrite <- app_assoc.
    + exists [EvPdfPages pdf_path], [EvPrint (PrintErrorReadingPdf e)].
      repeat split.
  - exists [], []. repeat split.
Qed.

End Components.

(** * The setup check *)

Section SetupCheckProperties.

Variable sw : SetupWorld.

Lemma lstrip_all_space (ws s : string) :
  all_space ws = true -> lstrip (ws ++ s) = lstrip s.
Proof.
  induction ws as [|c ws IH]; simpl; [reflexivity|].
  intros H. apply andb_true_iff in H as [Hc Hws]. rewrite Hc. auto.
Qed.

Lemma rstrip_all_space (ws : string) :
  all_space ws = true -> rstrip ws = EmptyString.
Proof.
  induction ws as [|c ws IH]; simpl; [reflexivity|].
  intros H. apply andb_true_iff in H as [Hc Hws].
  rewrite (IH Hws), Hc. reflexivity.
Qed.

Lemma rstrip_app_all_space (s ws : string) :
  all_space ws = true -> rstrip (s ++ ws) = rstrip s.
Proof.
  intros Hws. induction s as [|c s IH]; simpl.
  - now apply rstrip_all_space.
  - now rewrite IH.
Qed.

Lemma lstrip_empty_all_space (s : string) :
  lstrip s = EmptyString -> all_space s = true.
Proof.
  induction s as [|c s IH]; simpl; [reflexivity|].
  destruct (is_space c); [auto | discriminate].
Qed.

Lemma lstrip_app (s t : string) :
  lstrip s <> EmptyString -> lstrip (s ++ t) = (lstrip s ++ t)%string.
Proof.
  induction s as [|c s IH]; simpl; [congruence|].
  destruct (is_space c); auto.
Qed.

Lemma string_app_nil_r (s : string) : (s ++ "")%string = s.
Proof.
  induction s as [|c s IH]; simpl; congruence.
Qed.

Lemma string_app_assoc (a b c : string) :
  ((a ++ b) ++ c)%string = (a ++ (b ++ c))%string.
Proof.
  induction a as [|x a IH]; simpl; congruence.
Qed.

(** Whitespace around a line does not count. *)
Lemma strip_surrounding (ws1 s ws2 : string) :
  all_space ws1 = true -> all_space ws2 = true ->
  strip (ws1 ++ s ++ ws2) = strip s.
Proof.
  intros H1 H2. unfold strip. rewrite (@lstrip_all_space ws1 _ H1).
  destruct (lstrip s) as [|c r] eqn:Hs.
  - pose proof (lstrip_empty_all_space s Hs) as Hall.
    rewrite (@lstrip_all_space s _ Hall).
    rewrite <- (string_app_nil_r ws2), (@lstrip_all_space ws2 _ H2). reflexivity.
  - rewrite lstrip_app by congruence. rewrite Hs.
    now apply rstrip_app_all_space.
Qed.

(** With a ['='] in it, a line splits in two at its first ['=']. *)
Lemma split_equals_once_contains (s : string) :
  contains_equals s = true ->
  exists key value,
    split_equals_once s = [key; value]
    /\ s = (key ++ "=" ++ value)%string
    /\ contains_equals key = false.
Proof.
  induction s as [|c s IH]; simpl; [discriminate|].
  destruct (is_equals c) eqn:Hc.
  - intros _. exists EmptyString, s. repeat split.
    unfold is_equals in Hc. apply Nat.eqb_eq in Hc.
    rewrite <- (ascii_nat_embedding c), Hc. reflexivity.
  - simpl. intros H. destruct (IH H) as [key [value [Hsplit [Hs Hkey]]]].
    exists (String c key), value. rewrite Hsplit. repeat split.
    + simpl. f_equal. exact Hs.
    + simpl. now rewrite Hc.
Qed.

Lemma split_equals_once_app (key value : string) :
  contains_equals key = false ->
  split_equals_once (key ++ "=" ++ value) = [key; value]
  /\ contains_equals (key ++ "=" ++ value) = true.
Proof.
  induction key as [|c key IH]; intros H.
  - simpl. auto.
  - simpl in H. apply orb_false_iff in H as [Hc Hkey].
    destruct (IH Hkey) as [H1 H2].
    change (String c key ++ "=" ++ value)%string
      with (String c (key ++ "=" ++ value)%string).
    cbn [split_equals_once contains_equals]. rewrite Hc, H1, H2. auto.
Qed.

(** One line of the loop, by the setting it makes. *)
Lemma load_lines_cons (raw : string) (rest : list (result string))
    (env : environ) :
  load_lines sw (Ok raw :: rest) env
  = match setting_of raw with
    | None => load_lines sw rest env
    | Some (key, value) =>
        match putenv sw key value with
        | Ok _ => load_lines sw rest (environ_set key value env)
        | Raise e => (Raise e, env)
        end
    end.
Proof.
  cbn [load_lines]. unfold setting_of, is_ignored.
  destruct (str_truthy (strip raw)); simpl; [|reflexivity].
  destruct (startswith_hash (strip raw)); simpl; [reflexivity|].
  destruct (contains_equals (strip raw)) eqn:Hc; simpl; [|reflexivity].
  destruct (split_equals_once_contains _ Hc) as [key [value [-> _]]].
  reflexivity.
Qed.

(** Whitespace before and after a line of [.env], the newline included,
    changes nothing to what [load_env] does with it. *)
Theorem load_lines_surrounding_whitespace (ws1 raw ws2 : string)
    (rest : list (result string)) (env : environ) :
  all_space ws1 = true ->
  all_space ws2 = true ->
  load_lines sw (Ok (ws1 ++ raw ++ ws2)%string :: rest) env
  = load_lines sw (Ok raw :: rest) env.
Proof.
  intros H1 H2. cbn [load_lines]. now rewrite (@strip_surrounding ws1 raw ws2 H1 H2).
Qed.

(** A line [key=value] sets [key] to [value], both taken as they are: the
    key is what stands before the first ['='] and the value all that
    follows it, further ['='] signs, quotes and inner spaces included. *)
Theorem load_lines_sets_key_to_value (key value : string)
    (rest : list (result string)) (env : environ) :
  contains_equals key = false ->
  startswith_hash key = false ->
  strip (key ++ "=" ++ value) = (key ++ "=" ++ value)%string ->
  putenv sw key value = Ok tt ->
  load_lines sw (Ok (key ++ "=" ++ value)%string :: rest) env
  = load_lines sw rest (environ_set key value env).
Proof.
  intros Hkey Hhash Hstrip Hput. rewrite load_lines_cons.
  unfold setting_of, is_ignored. rewrite Hstrip.
  destruct (split_equals_once_app key value Hkey) as [Hsplit Hcontains].
  rewrite Hsplit, Hcontains.
  assert (Hline : str_truthy (key ++ "=" ++ value) = true
                  /\ startswith_hash (key ++ "=" ++ value) = false).
  { destruct key; simpl in *; auto. }
  destruct Hline as [-> ->]. simpl. now rewrite Hput.
Qed.

(** Without a [.env] file, or with one that holds only blank lines,
    comments and lines without ['='], [load_env] returns with the
    environment as it was, whatever the operating system would answer. *)
Theorem load_env_nothing_to_load (env : environ) :
  dotenv_exists sw = false
  \/ (exists raws,
        dotenv_open sw = Ok (map Ok raws)
        /\ forallb is_ignored raws = true) ->
  load_env sw env = (Ok tt, env).
Proof.
  unfold load_env. intros [Hmissing | [raws [Hopen Hignored]]].
  - now rewrite Hmissing.
  - destruct (dotenv_exists sw); [|reflexivity].
    rewrite Hopen. clear Hopen.
    induction raws as [|raw raws IH]; [reflexivity|].
    simpl in Hignored. apply andb_true_iff in Hignored as [Hraw Hraws].
    cbn [map]. rewrite load_lines_cons. unfold setting_of. rewrite Hraw.
    auto.
Qed.



Lemma load_lines_app (raws : list string) (tail : list (result string)) :
  forall env env1,
    load_lines sw (map Ok raws) env = (Ok tt, env1) ->
    load_lines sw (map Ok raws ++ tail) env = load_lines sw tail env1.
Proof.
  induction raws as [|raw raws IH]; intros env env1.
  - simpl. now intros [= <-].
  - cbn [map app]. rewrite !load_lines_cons.
    destruct (setting_of raw) as [[key value]|]; [|apply IH].
    destruct (putenv sw key value); [apply IH | discriminate].
Qed.

(** [load_env] stops at the first line that cannot be read or whose
    setting the operating system refuses: the exception leaves
    [load_env], the settings of the lines before stay, and the lines
    after are not looked at. *)
Theorem load_env_stops_at_first_error (raws : list string)
    (failing : result string) (rest : list (result string))
    (env env1 : environ) (e : exn) :
  dotenv_exists sw = true ->
  dotenv_open sw = Ok (map Ok raws ++ failing :: rest) ->
  load_lines sw (map Ok raws) env = (Ok tt, env1) ->
  failing = Raise e
  \/ (exists raw key value,
        failing = Ok raw /\ setting_of raw = Some (key, value)
        /\ putenv sw key value = Raise e) ->
  load_env sw env = (Raise e, env1).
Proof.
  intros Hexists Hopen Hbefore Hfail. unfold load_env.
  rewrite Hexists, Hopen, (@load_lines_app raws (failing :: rest) env env1 Hbefore).
  destruct Hfail as [-> | [raw [key [value [-> [Hset Hput]]]]]].
  - reflexivity.
  - rewrite load_lines_cons, Hset, Hput. reflexivity.
Qed.

Lemma substring_0_length (m : nat) (s : string) :
  String.length (substring 0 m s) <= m.
Proof.
  revert s. induction m as [|m IH]; intros [|c s]; simpl; try lia.
  specialize (IH s). lia.
Qed.

Lemma substring_0_prefix (m : nat) (s : string) :
  prefix (substring 0 m s) s = true.
Proof.
  revert s. induction m as [|m IH]; intros [|c s]; simpl; try reflexivity.
  destruct (ascii_dec c c); [apply IH | congruence].
Qed.

(** The report shows the start of the key only when the key is set and
    not empty, and then no more than its first ten characters. *)
Theorem test_env_shows_ten_characters (env env' : environ)
    (report : list report_line) (start : string) :
  test_env sw env = (Ok report, env') ->
  In (ReportKeyStart start) report ->
  exists key,
    env' "GROQ_API_KEY" = Some key
    /\ key <> ""
    /\ prefix start key = true
    /\ String.length start <= 10
    /\ (String.length key <= 10 -> start = key).
Proof.
  unfold test_env.
  destruct (load_env sw env) as [[[]|e] env1]; [|discriminate].
  intros [= <- <-] Hin.
  destruct (env1 "GROQ_API_KEY") as [key|] eqn:Hkey; simpl in Hin.
  - destruct key as [|c key]; simpl in Hin.
    + destruct Hin as [H | [H | [H | [H | []]]]]; discriminate.
    + destruct Hin as [H | [H | [H | [H | [H | []]]]]]; try discriminate.
      injection H as <-. exists (String c key).
      change (String c (substring 0 9 key))
        with (substring 0 10 (String c key)).
      split; [reflexivity|]. split; [discriminate|].
      split; [apply (substring_0_prefix 10)|].
      split; [apply (substring_0_length 10)|].
      intros Hlen. simpl in Hlen.
      do 10 (destruct key as [|? key]; [reflexivity|]).
      simpl in Hlen. lia.
  - destruct Hin as [H | [H | [H | [H | []]]]]; discriminate.
Qed.

End SetupCheckProperties.

(** * The further theorems at work *)

Import MoreExamples SetupExample.

Lemma process_pdf_raises_iff_witness :
  ((exists e,
      value_of (process_pdf loads dumps (answering "42") processor
                  "statement.pdf" "transactions.json" 0)
      = Raise e)
   <-> exists v,
         In (Ok v) (client_results loads (answering "42") processor 0 [first_text])
         /\ not_iterable v = true)
  /\ forall e,
       value_of (process_pdf loads dumps (answering "42") processor
                   "statement.pdf" "transactions.json" 0)
       = Raise e ->
       e = TypeError
       /\ forallb (fun e => negb (writes_file e))
            (events_of
               (process_pdf loads dumps (answering "42") processor
                  "statement.pdf" "transactions.json" 0))
          = true.
Proof.
  apply (@process_pdf_raises_iff loads dumps (answering "42") processor
           "statement.pdf" "transactions.json" 0 [first_text]).
  reflexivity.
Defined.

Lemma process_pdf_save_failure_witness :
  exists before,
    process_pdf loads dumps full_disk processor "statement.pdf"
      "transactions.json" 0
    = (Ok false,
       before
       ++ match file_open_w full_disk "transactions.json" with
          | Raise _ =>
              [ EvFileOpenW "transactions.json";
                EvPrint (PrintErrorSaving (LibraryError "No space left on device")) ]
          | Ok _ =>
              [ EvFileOpenW "transactions.json";
                EvFileWrite "transactions.json" (dumps (JArr [coffee]));
                EvFileClose "transactions.json";
                EvPrint (PrintErrorSaving (LibraryError "No space left on device")) ]
          end,
       2)
    /\ forallb (fun e => negb (writes_file e)) before = true.
Proof.
  apply (@process_pdf_save_failure loads dumps full_disk processor
           "statement.pdf" "transactions.json" 0 [first_text; second_text]
           [coffee]
           (events_of
              (for_each_text loads full_disk processor 2
                 [first_text; second_text] 1 [] 0))
           2 (LibraryError "No space left on device")).
  - reflexivity.
  - reflexivity.
  - discriminate.
  - right. split; reflexivity.
Defined.

Lemma process_pdf_delays_after_every_page_witness :
  filter is_request_or_delay (events_of scenario_run)
  = requests_and_delays (init "secret" default_model) [first_text; second_text]
  /\ filter is_sleep (events_of scenario_run)
     = repeat (EvSleep 8) (length [first_text; second_text]).
Proof.
  apply (@process_pdf_delays_after_every_page loads dumps scenario
           "secret" default_model "statement.pdf" "transactions.json" 0
           [first_text; second_text] true (events_of scenario_run) 2).
  - reflexivity.
  - simpl. lia.
  - reflexivity.
Defined.

Lemma main_missing_pdf_witness :
  main loads dumps path_str scenario args_missing_pdf 0
  = (Ok 1%Z,
     [ EvPathExists (path_str (pdf_file args_missing_pdf));
       EvPrint (PrintPdfNotFound (path_str (pdf_file args_missing_pdf))) ],
     0).
Proof.
  apply (@main_missing_pdf loads dumps path_str scenario args_missing_pdf 0).
  reflexivity.
Defined.

Lemma main_explicit_key_witness :
  main loads dumps path_str scenario_with_env args_with_key 0
  = match process_pdf loads dumps scenario_with_env
            (init "secret" (arg_model args_with_key))
            (path_str (pdf_file args_with_key)) (output args_with_key) 0 with
    | (Ok b, t, n') =>
        (Ok (if b then 0%Z else 1%Z),
         EvPathExists (path_str (pdf_file args_with_key)) :: t, n')
    | (Raise e, t, n') =>
        (Raise e, EvPathExists (path_str (pdf_file args_with_key)) :: t, n')
    end
  /\ forallb (fun e => negb (is_getenv e))
       (events_of (main loads dumps path_str scenario_with_env args_with_key 0))
     = true.
Proof.
  apply (@main_explicit_key loads dumps path_str scenario_with_env
           args_with_key "secret" 0).
  - reflexivity.
  - reflexivity.
  - discriminate.
Defined.

Lemma main_key_from_environment_witness :
  main loads dumps path_str scenario_with_env args 0
  = match process_pdf loads dumps scenario_with_env
            (init "secret" (arg_model args))
            (path_str (pdf_file args)) (output args) 0 with
    | (Ok b, t, n') =>
        (Ok (if b then 0%Z else 1%Z),
         EvPathExists (path_str (pdf_file args))
         :: EvGetenv "GROQ_API_KEY" :: t, n')
    | (Raise e, t, n') =>
        (Raise e,
         EvPathExists (path_str (pdf_file args))
         :: EvGetenv "GROQ_API_KEY" :: t, n')
    end.
Proof.
  apply (@main_key_from_environment loads dumps path_str scenario_with_env
           args "secret" 0).
  - reflexivity.
  - left. reflexivity.
  - reflexivity.
  - discriminate.
Defined.

Lemma main_exit_code_witness :
  (0 = 0 \/ 0 = 1)%Z
  /\ (0%Z = 0%Z ->
      exists all before,
        all <> []
        /\ events_of (main loads dumps path_str scenario args_with_key 0)
           = before
             ++ [ EvFileOpenW (output args_with_key);
                  EvFileWrite (output args_with_key) (dumps (JArr all));
                  EvFileClose (output args_with_key);
                  EvPrint (PrintSaved (length all) (output args_with_key)) ]
        /\ forallb (fun e => negb (writes_file e)) before = true).
Proof.
  apply (@main_exit_code loads dumps path_str scenario args_with_key 0 0%Z
           (events_of (main loads dumps path_str scenario args_with_key 0)) 2).
  reflexivity.
Defined.

Lemma extract_transactions_from_text_success_witness :
  extract_transactions_from_text loads scenario processor first_text 0
  = (Ok (JArr [coffee]), [post_of processor first_text], 1).
Proof.
  apply (@extract_transactions_from_text_success loads scenario processor
           first_text 0
           {| status_code := 200;
              text := dumps (completion ("[" ++ coffee_text ++ "]"));
              body_json := Ok (completion ("[" ++ coffee_text ++ "]")) |}
           (completion ("[" ++ coffee_text ++ "]"))
           ("[" ++ coffee_text ++ "]")%string (JArr [coffee]));
    reflexivity.
Defined.

Lemma extract_transactions_from_text_malformed_body_witness :
  extract_transactions_from_text loads answering_empty_body processor
    first_text 0
  = (Ok (JArr []),
     [post_of processor first_text; EvPrint (PrintErrorExtracting KeyError)], 1).
Proof.
  apply (@extract_transactions_from_text_malformed_body loads
           answering_empty_body processor first_text 0 empty_body KeyError).
  - reflexivity.
  - reflexivity.
  - right. left. exists (JObj []). split; reflexivity.
Defined.

Lemma extract_text_from_pdf_reads_every_page_witness :
  extract_text_from_pdf scenario processor "statement.pdf" 0
  = (Ok (texts_of statement_raws),
     EvPdfOpen "statement.pdf" :: EvPdfPages "statement.pdf"
     :: map (EvPdfExtractText "statement.pdf") (seq 0 (length statement_raws))
     ++ [EvPdfClose "statement.pdf"],
     0).
Proof.
  apply (@extract_text_from_pdf_reads_every_page scenario processor
           "statement.pdf" {| pages := Ok (map page_of statement_raws) |}
           statement_raws 0); reflexivity.
Defined.

Lemma extract_text_from_pdf_stops_at_first_error_witness :
  extract_text_from_pdf (world broken_pdf no_env (in_turn [])) processor
    "statement.pdf" 0
  = (Ok [],
     EvPdfOpen "statement.pdf" :: EvPdfPages "statement.pdf"
     :: map (EvPdfExtractText "statement.pdf")
          (seq 0 (S (length [Some first_text; Some "02-01-2024 Tea 2.00"])))
     ++ [ EvPdfClose "statement.pdf";
          EvPrint (PrintErrorReadingPdf (LibraryError "Unexpected EOF")) ],
     0).
Proof.
  apply (@extract_text_from_pdf_stops_at_first_error
           (world broken_pdf no_env (in_turn [])) processor "statement.pdf"
           {| pages := Ok (map page_of [Some first_text; Some "02-01-2024 Tea 2.00"]
                           ++ {| extract_text := Raise (LibraryError "Unexpected EOF") |}
                           :: []) |}
           [Some first_text; Some "02-01-2024 Tea 2.00"]
           {| extract_text := Raise (LibraryError "Unexpected EOF") |}
           [] (LibraryError "Unexpected EOF") 0); reflexivity.
Defined.

Lemma load_lines_surrounding_whitespace_witness :
  load_lines (with_file dotenv)
    [Ok ("  " ++ "GROQ_MODEL = llama3-8b-8192" ++ ("  " ++ newline))%string]
    empty_environ
  = load_lines (with_file dotenv) [Ok "GROQ_MODEL = llama3-8b-8192"]
      empty_environ.
Proof.
  apply (@load_lines_surrounding_whitespace (with_file dotenv) "  "
           "GROQ_MODEL = llama3-8b-8192" ("  " ++ newline)%string []
           empty_environ); reflexivity.
Defined.

Lemma load_lines_sets_key_to_value_witness :
  load_lines (with_file dotenv)
    [Ok ("GROQ_API_KEY" ++ "=" ++ "gsk_second=choice")%string] empty_environ
  = load_lines (with_file dotenv) []
      (environ_set "GROQ_API_KEY" "gsk_second=choice" empty_environ).
Proof.
  apply (@load_lines_sets_key_to_value (with_file dotenv) "GROQ_API_KEY"
           "gsk_second=choice" [] empty_environ); reflexivity.
Defined.

Lemma load_env_nothing_to_load_witness :
  load_env (with_file [ ("# Groq settings" ++ newline)%string; newline;
                        ("export nothing" ++ newline)%string ])
    empty_environ
  = (Ok tt, empty_environ).
Proof.
  apply (@load_env_nothing_to_load
           (with_file [ ("# Groq settings" ++ newline)%string; newline;
                        ("export nothing" ++ newline)%string ])
           empty_environ).
  right.
  exists [ ("# Groq settings" ++ newline)%string; newline;
           ("export nothing" ++ newline)%string ].
  split; reflexivity.
Defined.


Lemma load_env_stops_at_first_error_witness :
  load_env
    {| dotenv_exists := true;
       dotenv_open :=
         Ok (map Ok [("GROQ_MODEL=llama3-8b-8192" ++ newline)%string]
             ++ Ok ("=value" ++ newline)%string
             :: [Ok ("GROQ_API_KEY=gsk_0123456789abcdef" ++ newline)%string]);
       putenv := fun key _ =>
         if String.eqb key "" then Raise (LibraryError "Invalid argument")
         else Ok tt |}
    empty_environ
  = (Raise (LibraryError "Invalid argument"),
     environ_set "GROQ_MODEL" "llama3-8b-8192" empty_environ).
Proof.
  apply (@load_env_stops_at_first_error
           {| dotenv_exists := true;
              dotenv_open :=
                Ok (map Ok [("GROQ_MODEL=llama3-8b-8192" ++ newline)%string]
                    ++ Ok ("=value" ++ newline)%string
                    :: [Ok ("GROQ_API_KEY=gsk_0123456789abcdef" ++ newline)%string]);
              putenv := fun key _ =>
                if String.eqb key "" then Raise (LibraryError "Invalid argument")
                else Ok tt |}
           [("GROQ_MODEL=llama3-8b-8192" ++ newline)%string]
           (Ok ("=value" ++ newline)%string)
           [Ok ("GROQ_API_KEY=gsk_0123456789abcdef" ++ newline)%string]
           empty_environ
           (environ_set "GROQ_MODEL" "llama3-8b-8192" empty_environ)
           (LibraryError "Invalid argument")).
  - reflexivity.
  - reflexivity.
  - reflexivity.
  - right. exists ("=value" ++ newline)%string, ""%string, "value"%string.
    repeat split.
Defined.

Lemma test_env_shows_ten_characters_witness :
  exists key,
    snd (test_env (with_file dotenv) empty_environ) "GROQ_API_KEY" = Some key
    /\ key <> ""
    /\ prefix "gsk_second" key = true
    /\ String.length "gsk_second" <= 10
    /\ (String.length key <= 10 -> "gsk_second"%string = key).
Proof.
  apply (@test_env_shows_ten_characters (with_file dotenv) empty_environ
           (snd (test_env (with_file dotenv) empty_environ))
           [ ReportTitle; ReportEnvFile true; ReportKeyLoaded true;
             ReportKeyStart "gsk_second"; ReportModel "llama3-70b-8192" ]
           "gsk_second").
  - reflexivity.
  - simpl. auto.
Defined.

Lemma process_pdf_saves_last_witness :
  filter is_request_or_delay (firstn 16 (events_of scenario_run))
  = requests_and_delays processor [first_text; second_text]
  /\ is_file_call_on "transactions.json" (EvFileOpenW "transactions.json") = true
  /\ forallb (fun x => is_file_call_on "transactions.json" x || is_print x)
       (skipn 17 (events_of scenario_run)) = true.
Proof.
  apply (@process_pdf_saves_last loads dumps scenario processor "statement.pdf"
           "transactions.json" 0 [first_text; second_text]
           (firstn 16 (events_of scenario_run))
           (skipn 17 (events_of scenario_run))
           (EvFileOpenW "transactions.json")); reflexivity.
Defined.
